(** * Teacher performance dashboard: the ASP.NET API behind the React client

    A shallow embedding of the API under [api/]: the models of
    [Models/Dashboard.cs], the [DataService] of [Services/DataService.cs],
    the [AuthController], [DashboardController], [SchoolsController] and
    [TestsController], and the request pipeline configured in [Program.cs];
    and of the part of the React client that talks to it: the dashboard
    slice of the store, the calls of [services/api.ts], the students table
    and the loading of the dashboard page.

    Conventions of the embedding
    - a C# [string] that may be [null] (the query parameters) is an
      [option string]; model properties initialised to [string.Empty] are
      plain strings;
    - [int] is [Z]; the scores of one file never come close to the range of
      the [long] accumulator of [Enumerable.Average], so sums are exact;
    - [double] is modelled by exact rationals [Q] kept in lowest terms
      ([Qred]), so that two equal numbers are the same term; the module
      [Binary64] has the same arithmetic on IEEE doubles, and the two are
      compared where the difference matters, for the class average;
    - time is a [Z] count of milliseconds; [Task.Delay] advances the clock
      of the process by the delay asked for, and further time passes between
      requests;
    - a request may throw, which the controllers catch; requests are handled
      one at a time, each to completion. *)

From Stdlib Require Import ZArith QArith Qround Qabs Ascii String List Lia Lqa.
From Stdlib Require Import PrimFloat Uint63.
From stdpp Require Import base option gmap strings pretty list.

Local Open Scope string_scope.
Local Open Scope list_scope.
Local Open Scope Z_scope.

(** ** Models ([Models/Dashboard.cs]) *)

Module School.
Record t := mk { Id : string; Name : string; District : string }.
End School.

Module Test.
Record t := mk { Id : string; Name : string; Subject : string; MaxScore : Z }.
End Test.

Module Student.
Record t := mk
  { Id : string; FirstName : string; LastName : string;
    StudentId : string; Grade : string }.
End Student.

Module StudentScore.
Record t := mk
  { StudentId : string; TestId : string; Score : Z;
    Percentile : Z; TestDate : string }.
End StudentScore.

Module AggregateScore.
Record t := mk
  { TestId : string; SchoolYear : string; ClassAverage : Q;
    SchoolAverage : Q; DistrictAverage : Q; TotalStudents : Z }.
End AggregateScore.

Module HistoricalPerformance.
Record t := mk
  { Year : string; Subject : string; ClassAverage : Q;
    SchoolAverage : Q; DistrictAverage : Q }.
End HistoricalPerformance.

Module DashboardData.
Record t := mk
  { Students : list Student.t;
    Scores : list StudentScore.t;
    AggregateScores : AggregateScore.t;
    HistoricalPerformance : list HistoricalPerformance.t }.
End DashboardData.

(** The user and login models ([Models/User.cs]), with the properties that
    [AuthController.Login] reads and writes. *)

Module User.
Record t := mk
  { Id : string; Username : string; PasswordHash : string;
    Name : string; Email : string; Role : string }.
End User.

Module LoginRequest.
Record t := mk { Username : string; Password : string }.
End LoginRequest.

Module UserDto.
Record t := mk
  { Id : string; Username : string; Name : string;
    Email : string; Role : string }.
End UserDto.

(** A JSON web token, kept as its claims and its signature instead of the
    three base64 segments of the string. *)
Module Jwt.
Record Claims := mkClaims
  { NameIdentifier : string; Name : string; Role : string;
    Issuer : string; Audience : string; Expires : Z }.
Record t := mk { Payload : Claims; Signature : string }.
End Jwt.

Module LoginResponse.
Record t := mk { User : UserDto.t; Token : Jwt.t }.
End LoginResponse.

(** The [JwtSettings] section of the configuration, bound in [Program.cs]. *)
Module JwtSettings.
Record t := mk
  { Secret : string; Issuer : string; Audience : string;
    ExpirationMinutes : Z }.
End JwtSettings.

(** ** The process: clock, memory cache, exceptions *)

Inductive Exn :=
| IOException            (* File.ReadAllTextAsync failed *)
| JsonException          (* JsonSerializer.Deserialize rejected the text *)
| InvalidOperationException. (* Enumerable.Average on an empty sequence *)

(** What the three controllers put into the one shared [IMemoryCache]. *)
Inductive CacheObject :=
| ObjDashboard (data : DashboardData.t)
| ObjSchools (schools : list School.t)
| ObjTests (tests : list Test.t).

Record CacheEntry := { Value : CacheObject; AbsoluteExpiration : Z }.

Record Server := { UtcNow : Z; Entries : gmap string CacheEntry }.

(** The methods of [IDataService]; a run records which of them it invoked. *)
Module IDataService.
Inductive Call :=
| GetUsers | GetSchools | GetTests | GetStudents | GetScores
| GetHistoricalPerformance.
End IDataService.

Inductive Completion (A : Type) :=
| Returned (a : A)
| Thrown (e : Exn).
Arguments Returned {A} a.
Arguments Thrown {A} e.

(** An [async] method: from the state of the process to the data-service
    calls made, the state left behind, and a value or an exception. *)
Definition Task (A : Type) : Type :=
  Server -> list IDataService.Call * Server * Completion A.

Definition ret {A} (a : A) : Task A := fun s => ([], s, Returned a).

Definition throw {A} (e : Exn) : Task A := fun s => ([], s, Thrown e).

Definition bind {A B} (m : Task A) (k : A -> Task B) : Task B :=
  fun s =>
    match m s with
    | (c1, s1, Returned a) =>
        match k a s1 with
        | (c2, s2, r) => (c1 ++ c2, s2, r)
        end
    | (c1, s1, Thrown e) => (c1, s1, Thrown e)
    end.

(** [try { body } catch (Exception ex) { return handler ex; }] *)
Definition try_catch {A} (body : Task A) (handler : Exn -> A) : Task A :=
  fun s =>
    match body s with
    | (c, s1, Returned a) => (c, s1, Returned a)
    | (c, s1, Thrown e) => (c, s1, Returned (handler e))
    end.

Notation "'await' x <~ m ;; k" := (bind m (fun x => k))
  (at level 10, x name, m at level 99, k at level 200).

Definition Task_Delay (milliseconds : Z) : Task unit :=
  fun s => ([], {| UtcNow := UtcNow s + milliseconds; Entries := Entries s |},
            Returned tt).

Definition FromMinutes (m : Z) : Z := m * 60000.

(** Modelled from the spec: the [IMemoryCache] of the framework, through the
    two operations the controllers use. A lookup finds a key only while
    [now < expiresAt]; [Set] with [SetAbsoluteExpiration(ttl)] stores the
    value with [expiresAt = now + ttl], replacing what the key held. The
    typed [TryGetValue<T>] also misses when the stored object is not a [T].
    [Live] is the entry that a lookup of [key] finds at the present moment. *)
Definition Live (s : Server) (key : string) : option CacheObject :=
  match Entries s !! key with
  | Some e => if UtcNow s <? AbsoluteExpiration e then Some (Value e) else None
  | None => None
  end.

(** Modelled from the spec: [IMemoryCache.TryGetValue<T>], a lookup that
    returns the stored value while the entry is live and changes nothing. *)
Definition TryGetValue {T} (cast : CacheObject -> option T) (key : string)
  : Task (option T) :=
  fun s =>
    ([], s,
     Returned match Live s key with Some o => cast o | None => None end).

(** Modelled from the spec: [IMemoryCache.Set] with
    [SetAbsoluteExpiration(ttl)], which stores the value to expire [ttl]
    after the present moment. *)
Definition Set_ (key : string) (value : CacheObject) (ttl : Z) : Task unit :=
  fun s =>
    ([], {| UtcNow := UtcNow s;
            Entries := <[key := {| Value := value;
                                   AbsoluteExpiration := UtcNow s + ttl |}]>
                         (Entries s) |},
     Returned tt).

Definition asDashboardData (o : CacheObject) : option DashboardData.t :=
  match o with ObjDashboard d => Some d | _ => None end.

Definition asSchools (o : CacheObject) : option (list School.t) :=
  match o with ObjSchools l => Some l | _ => None end.

Definition asTests (o : CacheObject) : option (list Test.t) :=
  match o with ObjTests l => Some l | _ => None end.

(** ** DataService ([Services/DataService.cs]) *)

(** What [ReadJsonFileAsync] can find under the [Data] directory. *)
Inductive JsonFile (T : Type) :=
| Absent                 (* File.Exists is false *)
| Unreadable             (* the file exists, reading it throws *)
| Malformed              (* the text is not a JSON array of T *)
| JsonNull               (* the text is the literal null *)
| JsonArray (items : list T).
Arguments Absent {T}.
Arguments Unreadable {T}.
Arguments Malformed {T}.
Arguments JsonNull {T}.
Arguments JsonArray {T} items.

Record DataDirectory :=
  { users_json : JsonFile User.t;
    schools_json : JsonFile School.t;
    tests_json : JsonFile Test.t;
    students_json : JsonFile Student.t;
    scores_json : JsonFile StudentScore.t;
    historicalPerformance_json : JsonFile HistoricalPerformance.t }.

Definition ReadJsonFileAsync {T} (file : JsonFile T) : Task (list T) :=
  match file with
  | Absent => ret []
  | Unreadable => throw IOException
  | Malformed => throw JsonException
  | JsonNull => ret []
  | JsonArray items => ret items
  end.

Definition invoke {A} (c : IDataService.Call) (m : Task A) : Task A :=
  fun s => match m s with (cs, s1, r) => (c :: cs, s1, r) end.

Section DataService.
Variable _dataPath : DataDirectory.

Definition GetUsersAsync : Task (list User.t) :=
  invoke IDataService.GetUsers (ReadJsonFileAsync (users_json _dataPath)).
Definition GetSchoolsAsync : Task (list School.t) :=
  invoke IDataService.GetSchools (ReadJsonFileAsync (schools_json _dataPath)).
Definition GetTestsAsync : Task (list Test.t) :=
  invoke IDataService.GetTests (ReadJsonFileAsync (tests_json _dataPath)).
Definition GetStudentsAsync : Task (list Student.t) :=
  invoke IDataService.GetStudents (ReadJsonFileAsync (students_json _dataPath)).
Definition GetScoresAsync : Task (list StudentScore.t) :=
  invoke IDataService.GetScores (ReadJsonFileAsync (scores_json _dataPath)).
Definition GetHistoricalPerformanceAsync : Task (list HistoricalPerformance.t) :=
  invoke IDataService.GetHistoricalPerformance
    (ReadJsonFileAsync (historicalPerformance_json _dataPath)).
End DataService.

(** ** TokenService and the bearer-token gate *)

(** The token service holds the settings and the keyed hash (HMAC-SHA256)
    that signs a token's claims. *)
Record TokenService :=
  { Settings : JwtSettings.t;
    Hmac : string -> Jwt.Claims -> string }.

(** Modelled from the spec: [TokenService.GenerateToken], declared in
    [Services/TokenService.cs]. On a successful login it issues a token for
    the user, signed with the server-held secret, with a fixed expiry
    counted from the moment of issue. *)
Definition GenerateToken (svc : TokenService) (userId username role : string)
  : Task Jwt.t :=
  fun s =>
    let claims :=
      {| Jwt.NameIdentifier := userId;
         Jwt.Name := username;
         Jwt.Role := role;
         Jwt.Issuer := JwtSettings.Issuer (Settings svc);
         Jwt.Audience := JwtSettings.Audience (Settings svc);
         Jwt.Expires :=
           UtcNow s + FromMinutes (JwtSettings.ExpirationMinutes (Settings svc)) |} in
    ([], s,
     Returned
       {| Jwt.Payload := claims;
          Jwt.Signature := Hmac svc (JwtSettings.Secret (Settings svc)) claims |}).

Module TokenValidationParameters.
Record t := mk
  { ValidateIssuer : bool; ValidateAudience : bool; ValidateLifetime : bool;
    ValidateIssuerSigningKey : bool;
    ValidIssuer : string; ValidAudience : string; IssuerSigningKey : string }.
End TokenValidationParameters.

(** The parameters that [Program.cs] gives to [AddJwtBearer]. *)
Definition AddJwtBearer (jwtSettings : JwtSettings.t)
  : TokenValidationParameters.t :=
  {| TokenValidationParameters.ValidateIssuer := true;
     TokenValidationParameters.ValidateAudience := true;
     TokenValidationParameters.ValidateLifetime := true;
     TokenValidationParameters.ValidateIssuerSigningKey := true;
     TokenValidationParameters.ValidIssuer := JwtSettings.Issuer jwtSettings;
     TokenValidationParameters.ValidAudience := JwtSettings.Audience jwtSettings;
     TokenValidationParameters.IssuerSigningKey :=
       JwtSettings.Secret jwtSettings |}.

(** Modelled from the spec: the validation done by the JWT bearer handler of
    the framework under given parameters. The signature must validate
    against the server-held signing key; issuer, audience and lifetime are
    checked when the parameters ask for it, and a token past its expiry then
    is rejected. (A symmetric signing key needs no validation of its own.) *)
Definition ValidateToken (svc : TokenService)
  (parameters : TokenValidationParameters.t) (now : Z) (token : Jwt.t) : bool :=
  String.eqb (Jwt.Signature token)
             (Hmac svc (TokenValidationParameters.IssuerSigningKey parameters)
                   (Jwt.Payload token))
  && implb (TokenValidationParameters.ValidateIssuer parameters)
           (String.eqb (Jwt.Issuer (Jwt.Payload token))
                       (TokenValidationParameters.ValidIssuer parameters))
  && implb (TokenValidationParameters.ValidateAudience parameters)
           (String.eqb (Jwt.Audience (Jwt.Payload token))
                       (TokenValidationParameters.ValidAudience parameters))
  && implb (TokenValidationParameters.ValidateLifetime parameters)
           (now <=? Jwt.Expires (Jwt.Payload token)).

(** ** The numeric helpers of the framework used by the dashboard *)

(** [Enumerable.Average] over an [int] selector: a running sum and count,
    then [(double)sum / count]; it throws on an empty sequence. *)
Definition Average {T} (selector : T -> Z) (source : list T) : Task Q :=
  let '(sum, count) :=
    fold_left (fun '(sum, count) x => (sum + selector x, count + 1))
              source (0, 0) in
  if count =? 0 then throw InvalidOperationException
  else ret (Qred (inject_Z sum / inject_Z count)).

(** [Math.Round(double)]: the nearest integer, a midpoint going to the even
    neighbour ([MidpointRounding.ToEven], the mode used when none is given). *)
Definition Round (a : Q) : Z :=
  let f := Qfloor a in
  match (a - inject_Z f ?= 1 # 2)%Q with
  | Lt => f
  | Gt => f + 1
  | Eq => if Z.even f then f else f + 1
  end.

(** [Math.Round(double value, int digits)]: scale by [10^digits], round to
    an integer, scale back. *)
Definition Math_Round (value : Q) (digits : nat) : Q :=
  let power10 := inject_Z (10 ^ Z.of_nat digits) in
  Qred (inject_Z (Round (value * power10)) / power10).

Definition Any {T} (source : list T) : bool :=
  match source with [] => false | _ :: _ => true end.

Definition FirstOrDefault {T} (predicate : T -> bool) (source : list T)
  : option T :=
  List.find predicate source.

(** ** Controllers *)

Inductive ActionResult (A : Type) :=
| Ok (value : A)
| BadRequest (message : string)
| Unauthorized (message : string)
| StatusCode (code : Z) (message : string).
Arguments Ok {A} value.
Arguments BadRequest {A} message.
Arguments Unauthorized {A} message.
Arguments StatusCode {A} code message.

Definition IsNullOrEmpty (s : option string) : bool :=
  match s with
  | None => true
  | Some s => (String.length s =? 0)%nat
  end.

(** A [null] string formats as the empty string in an interpolation. *)
Definition fmt (s : option string) : string := default "" s.

(** [a == b] on strings, the right one possibly [null]. *)
Definition op_Equality (a : string) (b : option string) : bool :=
  match b with
  | Some b => String.eqb a b
  | None => false
  end.

(** The key under which a dashboard is cached:
    [$"dashboard_{schoolId}_{schoolYear}_{testId}"]. *)
Definition cacheKey (schoolId schoolYear testId : option string) : string :=
  "dashboard_" +:+ fmt schoolId +:+ "_" +:+ fmt schoolYear
               +:+ "_" +:+ fmt testId.

Section Controllers.
Variable _dataService : DataDirectory.
Variable _tokenService : TokenService.

(** [AuthController.Login] *)
Definition Login (request : LoginRequest.t)
  : Task (ActionResult LoginResponse.t) :=
  try_catch
    (await _ <~ Task_Delay 800 ;;
     await users <~ GetUsersAsync _dataService ;;
     let user :=
       FirstOrDefault
         (fun u =>
            String.eqb (User.Username u) (LoginRequest.Username request)
            && String.eqb (User.PasswordHash u)
                          (LoginRequest.Password request))
         users in
     match user with
     | None => ret (Unauthorized "Invalid credentials")
     | Some user =>
         await token <~
           GenerateToken _tokenService (User.Id user) (User.Username user)
                         (User.Role user) ;;
         let response :=
           {| LoginResponse.User :=
                {| UserDto.Id := User.Id user;
                   UserDto.Username := User.Username user;
                   UserDto.Name := User.Name user;
                   UserDto.Email := User.Email user;
                   UserDto.Role := User.Role user |};
              LoginResponse.Token := token |} in
         ret (Ok response)
     end)
    (fun ex => StatusCode 500 "An error occurred during login").

(** [DashboardController.GetDashboardData] *)
Definition GetDashboardData (schoolId schoolYear testId : option string)
  : Task (ActionResult DashboardData.t) :=
  try_catch
    (if IsNullOrEmpty schoolId || IsNullOrEmpty schoolYear
        || IsNullOrEmpty testId
     then ret (BadRequest "schoolId, schoolYear, and testId are required")
     else
       let cacheKey := cacheKey schoolId schoolYear testId in
       await cached <~ TryGetValue asDashboardData cacheKey ;;
       match cached with
       | Some data => ret (Ok data)
       | None =>
           await _ <~ Task_Delay 600 ;;
           await students <~ GetStudentsAsync _dataService ;;
           await scores <~ GetScoresAsync _dataService ;;
           await historicalPerformance <~
             GetHistoricalPerformanceAsync _dataService ;;
           let testScores :=
             List.filter
               (fun s => op_Equality (StudentScore.TestId s) testId) scores in
           await classAverage <~
             (if Any testScores
              then Average StudentScore.Score testScores
              else ret 0%Q) ;;
           let data :=
             {| DashboardData.Students := students;
                DashboardData.Scores := testScores;
                DashboardData.AggregateScores :=
                  {| AggregateScore.TestId := fmt testId;
                     AggregateScore.SchoolYear := fmt schoolYear;
                     AggregateScore.ClassAverage := Math_Round classAverage 1;
                     AggregateScore.SchoolAverage := 81.5%Q;
                     AggregateScore.DistrictAverage := 79.3%Q;
                     AggregateScore.TotalStudents :=
                       Z.of_nat (length students) |};
                DashboardData.HistoricalPerformance :=
                  historicalPerformance |} in
           await _ <~ Set_ cacheKey (ObjDashboard data) (FromMinutes 10) ;;
           ret (Ok data)
       end)
    (fun ex =>
       StatusCode 500 "An error occurred while retrieving dashboard data").

(** [TestsController.GetTests] *)
Definition GetTests : Task (ActionResult (list Test.t)) :=
  try_catch
    (let cacheKey := "tests" in
     await cached <~ TryGetValue asTests cacheKey ;;
     match cached with
     | Some tests => ret (Ok tests)
     | None =>
         await _ <~ Task_Delay 300 ;;
         await tests <~ GetTestsAsync _dataService ;;
         await _ <~ Set_ cacheKey (ObjTests tests) (FromMinutes 30) ;;
         ret (Ok tests)
     end)
    (fun ex => StatusCode 500 "An error occurred while retrieving tests").

(** [SchoolsController.GetSchools] *)
Definition GetSchools : Task (ActionResult (list School.t)) :=
  try_catch
    (let cacheKey := "schools" in
     await cached <~ TryGetValue asSchools cacheKey ;;
     match cached with
     | Some schools => ret (Ok schools)
     | None =>
         await _ <~ Task_Delay 300 ;;
         await schools <~ GetSchoolsAsync _dataService ;;
         await _ <~ Set_ cacheKey (ObjSchools schools) (FromMinutes 30) ;;
         ret (Ok schools)
     end)
    (fun ex => StatusCode 500 "An error occurred while retrieving schools").
End Controllers.


(** ** The request pipeline ([Program.cs]) *)

Inductive Route :=
| POST_auth_login (body : LoginRequest.t)
| GET_schools
| GET_tests
| GET_dashboard (schoolId schoolYear testId : option string).

(** A request: the bearer token of its [Authorization] header, if any, and
    the action it asks for. *)
Record HttpRequest := { Bearer : option Jwt.t; Action : Route }.

Inductive HttpResponse :=
| Challenge                                  (* 401 from the bearer scheme *)
| FromLogin (r : ActionResult LoginResponse.t)
| FromSchools (r : ActionResult (list School.t))
| FromTests (r : ActionResult (list Test.t))
| FromDashboard (r : ActionResult DashboardData.t).

(** The controllers that carry [[Authorize]]. *)
Definition Authorize (a : Route) : bool :=
  match a with
  | POST_auth_login _ => false
  | GET_schools | GET_tests | GET_dashboard _ _ _ => true
  end.

Definition fmap_task {A B} (f : A -> B) (m : Task A) : Task B :=
  await a <~ m ;; ret (f a).

Section Pipeline.
Variable _dataService : DataDirectory.
Variable _tokenService : TokenService.

(** [app.UseAuthentication()] *)
Definition Authenticated (request : HttpRequest) (s : Server) : bool :=
  match Bearer request with
  | Some token =>
      ValidateToken _tokenService (AddJwtBearer (Settings _tokenService))
                    (UtcNow s) token
  | None => false
  end.

(** [app.MapControllers()] *)
Definition Dispatch (a : Route) : Task HttpResponse :=
  match a with
  | POST_auth_login body =>
      fmap_task FromLogin (Login _dataService _tokenService body)
  | GET_schools => fmap_task FromSchools (GetSchools _dataService)
  | GET_tests => fmap_task FromTests (GetTests _dataService)
  | GET_dashboard schoolId schoolYear testId =>
      fmap_task FromDashboard
        (GetDashboardData _dataService schoolId schoolYear testId)
  end.

(** Authentication, then authorization, then the controller. *)
Definition Handle (request : HttpRequest) : Task HttpResponse :=
  fun s =>
    if Authorize (Action request) && negb (Authenticated request s)
    then ret Challenge s
    else Dispatch (Action request) s.
End Pipeline.

(** ** The server over time *)

(** Time passes, or a request is received and handled to completion. *)
Inductive Event :=
| Elapse (milliseconds : N)
| Receive (request : HttpRequest).

Definition step (data : DataDirectory) (svc : TokenService) (e : Event)
  (s : Server) : Server :=
  match e with
  | Elapse d => {| UtcNow := UtcNow s + Z.of_N d; Entries := Entries s |}
  | Receive request => snd (fst (Handle data svc request s))
  end.

Definition run (data : DataDirectory) (svc : TokenService) (evs : list Event)
  (s : Server) : Server :=
  fold_left (fun s e => step data svc e s) evs s.

(** ** Vocabulary of the statements *)

(** The HTTP status carried by an action result. *)
Definition StatusOf {A} (r : ActionResult A) : Z :=
  match r with
  | Ok _ => 200
  | BadRequest _ => 400
  | Unauthorized _ => 401
  | StatusCode code _ => code
  end.

(** A read of the file returns (rather than throws), and what it returns. *)
Definition readable {T} (f : JsonFile T) : bool :=
  match f with
  | Unreadable | Malformed => false
  | Absent | JsonNull | JsonArray _ => true
  end.

Definition items {T} (f : JsonFile T) : list T :=
  match f with
  | JsonArray l => l
  | _ => []
  end.

(** The scores of one test, and the arithmetic mean of a list of scores. *)
Definition matching (testId : option string) (scores : list StudentScore.t)
  : list StudentScore.t :=
  List.filter (fun s => op_Equality (StudentScore.TestId s) testId) scores.

Definition total (l : list StudentScore.t) : Z :=
  fold_right (fun s acc => StudentScore.Score s + acc) 0 l.

Definition mean (l : list StudentScore.t) : Q :=
  (inject_Z (total l) / inject_Z (Z.of_nat (length l)))%Q.

(** A query parameter that is missing or empty. *)
Definition MissingOrEmpty (p : option string) : Prop :=
  p = None \/ p = Some "".

Definition ValidQuery (schoolId schoolYear testId : option string) : Prop :=
  ~ MissingOrEmpty schoolId /\ ~ MissingOrEmpty schoolYear
  /\ ~ MissingOrEmpty testId.

(** The dashboard that a computation over the data directory builds. *)
Definition FreshDashboard (data : DataDirectory)
  (schoolYear testId : option string) : DashboardData.t :=
  let testScores := matching testId (items (scores_json data)) in
  {| DashboardData.Students := items (students_json data);
     DashboardData.Scores := testScores;
     DashboardData.AggregateScores :=
       {| AggregateScore.TestId := fmt testId;
          AggregateScore.SchoolYear := fmt schoolYear;
          AggregateScore.ClassAverage :=
            Math_Round (if Any testScores then Qred (mean testScores) else 0%Q) 1;
          AggregateScore.SchoolAverage := 81.5%Q;
          AggregateScore.DistrictAverage := 79.3%Q;
          AggregateScore.TotalStudents :=
            Z.of_nat (length (items (students_json data))) |};
     DashboardData.HistoricalPerformance :=
       items (historicalPerformance_json data) |}.

(** What a dashboard lookup under [key] finds in the cache right now. *)
Definition CachedDashboard (s : Server) (key : string)
  : option DashboardData.t :=
  match Live s key with Some o => asDashboardData o | None => None end.

Definition Stored (s : Server) (key : string) (value : CacheObject) (ttl : Z)
  : Server :=
  {| UtcNow := UtcNow s;
     Entries := <[key := {| Value := value;
                            AbsoluteExpiration := UtcNow s + ttl |}]>
                  (Entries s) |}.

Definition Later (s : Server) (milliseconds : Z) : Server :=
  {| UtcNow := UtcNow s + milliseconds; Entries := Entries s |}.

Definition CachedTests (s : Server) : option (list Test.t) :=
  match Live s "tests" with Some o => asTests o | None => None end.

Definition CachedSchools (s : Server) : option (list School.t) :=
  match Live s "schools" with Some o => asSchools o | None => None end.

(** The routes that the specification lists as protected. *)
Definition Protected (a : Route) : Prop :=
  a = GET_schools \/ a = GET_tests
  \/ exists schoolId schoolYear testId, a = GET_dashboard schoolId schoolYear testId.

(** A token signed with the secret the server holds; a token past its expiry. *)
Definition SignatureValidates (svc : TokenService) (token : Jwt.t) : Prop :=
  Jwt.Signature token
  = Hmac svc (JwtSettings.Secret (Settings svc)) (Jwt.Payload token).

Definition Expired (now : Z) (token : Jwt.t) : Prop :=
  Jwt.Expires (Jwt.Payload token) < now.

(** A backing file that cannot be read: it is not there, reading it fails,
    or its text does not parse. *)
Definition CannotBeRead {T} (f : JsonFile T) : Prop :=
  match f with
  | Absent | Unreadable | Malformed => True
  | JsonNull | JsonArray _ => False
  end.

(** A stored credential record that matches a login request. *)
Definition Matches (request : LoginRequest.t) (u : User.t) : Prop :=
  User.Username u = LoginRequest.Username request /\
  User.PasswordHash u = LoginRequest.Password request.

Definition DtoOf (u : User.t) : UserDto.t :=
  {| UserDto.Id := User.Id u;
     UserDto.Username := User.Username u;
     UserDto.Name := User.Name u;
     UserDto.Email := User.Email u;
     UserDto.Role := User.Role u |}.

(** What one event can do to the process: nothing, let time pass, or let
    time pass and store a freshly computed dashboard, test list or school
    list under its key. *)
Inductive Effect (data : DataDirectory) (s : Server) : Event -> Server -> Prop :=
| EffectElapse d :
    Effect data s (Elapse d) (Later s (Z.of_N d))
| EffectNone request :
    Effect data s (Receive request) s
| EffectDelay request ms :
    0 <= ms -> Effect data s (Receive request) (Later s ms)
| EffectDashboard token schoolId schoolYear testId :
    IsNullOrEmpty schoolId || IsNullOrEmpty schoolYear || IsNullOrEmpty testId
    = false ->
    CachedDashboard s (cacheKey schoolId schoolYear testId) = None ->
    Effect data s
      (Receive {| Bearer := token;
                  Action := GET_dashboard schoolId schoolYear testId |})
      (Stored (Later s 600) (cacheKey schoolId schoolYear testId)
              (ObjDashboard (FreshDashboard data schoolYear testId))
              (FromMinutes 10))
| EffectTests request :
    CachedTests s = None ->
    Effect data s (Receive request)
      (Stored (Later s 300) "tests" (ObjTests (items (tests_json data)))
              (FromMinutes 30))
| EffectSchools request :
    CachedSchools s = None ->
    Effect data s (Receive request)
      (Stored (Later s 300) "schools" (ObjSchools (items (schools_json data)))
              (FromMinutes 30)).

(** An identifier without an underscore in it. *)
Definition NoUnderscore (p : option string) : Prop :=
  ~ In "_"%char (list_ascii_of_string (fmt p)).

(** The events whose dashboard queries have school ids and school years
    that satisfy [ok]. *)
Definition EventOk (ok : option string -> Prop) (e : Event) : Prop :=
  match e with
  | Receive {| Action := GET_dashboard schoolId schoolYear _ |} =>
      ok schoolId /\ ok schoolYear
  | _ => True
  end.

(** Every dashboard in the cache was computed from [data] by a valid query
    that has the entry's key and whose ids satisfy [ok]. *)
Definition Coherent (ok : option string -> Prop) (data : DataDirectory)
  (s : Server) : Prop :=
  forall k e d,
    Entries s !! k = Some e -> Value e = ObjDashboard d ->
    exists schoolId schoolYear testId,
      ok schoolId /\ ok schoolYear /\
      IsNullOrEmpty schoolId || IsNullOrEmpty schoolYear
      || IsNullOrEmpty testId = false /\
      k = cacheKey schoolId schoolYear testId /\
      d = FreshDashboard data schoolYear testId.

(** Two dashboards with the same data: everything but the echoed year. *)
Definition SameData (d1 d2 : DashboardData.t) : Prop :=
  DashboardData.Students d1 = DashboardData.Students d2 /\
  DashboardData.Scores d1 = DashboardData.Scores d2 /\
  DashboardData.HistoricalPerformance d1
  = DashboardData.HistoricalPerformance d2 /\
  AggregateScore.ClassAverage (DashboardData.AggregateScores d1)
  = AggregateScore.ClassAverage (DashboardData.AggregateScores d2) /\
  AggregateScore.SchoolAverage (DashboardData.AggregateScores d1) = 81.5%Q /\
  AggregateScore.SchoolAverage (DashboardData.AggregateScores d2) = 81.5%Q /\
  AggregateScore.DistrictAverage (DashboardData.AggregateScores d1) = 79.3%Q /\
  AggregateScore.DistrictAverage (DashboardData.AggregateScores d2) = 79.3%Q /\
  AggregateScore.TotalStudents (DashboardData.AggregateScores d1)
  = AggregateScore.TotalStudents (DashboardData.AggregateScores d2).

(** Rounding to [digits] decimals with midpoints going away from zero, as
    the specification words it. *)
Definition RoundHalfAwayFromZero (value : Q) (digits : nat) : Q :=
  let power10 := inject_Z (10 ^ Z.of_nat digits) in
  let scaled := (Qabs value * power10 + (1 # 2))%Q in
  Qred (inject_Z (Z.sgn (Qnum value) * Qfloor scaled) / power10).

(** ** The React client

    The Redux slice of the dashboard ([store/dashboardSlice.ts]), the calls
    of [services/api.ts], the table of [components/StudentList.tsx] and the
    loading of the page ([pages/Dashboard.tsx]). The JSON of an answer is
    read back as the value the controller returned; a selection that is
    [null] is [None]. *)

Module DashboardState.
Record t := mk
  { students : list Student.t;
    scores : list StudentScore.t;
    aggregateScores : option AggregateScore.t;
    historicalPerformance : list HistoricalPerformance.t;
    selectedSchoolId : option string;
    selectedSchoolYear : option string;
    selectedTestId : option string;
    loading : bool;
    error : option string }.
End DashboardState.

Definition initialState : DashboardState.t :=
  {| DashboardState.students := [];
     DashboardState.scores := [];
     DashboardState.aggregateScores := None;
     DashboardState.historicalPerformance := [];
     DashboardState.selectedSchoolId := None;
     DashboardState.selectedSchoolYear := None;
     DashboardState.selectedTestId := None;
     DashboardState.loading := false;
     DashboardState.error := None |}.

(** The reducers of [dashboardSlice]. *)
Section Reducers.
Import DashboardState.

Definition setSelectedSchool (state : t) (payload : string) : t :=
  {| students := students state; scores := scores state;
     aggregateScores := aggregateScores state;
     historicalPerformance := historicalPerformance state;
     selectedSchoolId := Some payload;
     selectedSchoolYear := selectedSchoolYear state;
     selectedTestId := selectedTestId state;
     loading := loading state; error := error state |}.

Definition setSelectedSchoolYear (state : t) (payload : string) : t :=
  {| students := students state; scores := scores state;
     aggregateScores := aggregateScores state;
     historicalPerformance := historicalPerformance state;
     selectedSchoolId := selectedSchoolId state;
     selectedSchoolYear := Some payload;
     selectedTestId := selectedTestId state;
     loading := loading state; error := error state |}.

Definition setSelectedTest (state : t) (payload : string) : t :=
  {| students := students state; scores := scores state;
     aggregateScores := aggregateScores state;
     historicalPerformance := historicalPerformance state;
     selectedSchoolId := selectedSchoolId state;
     selectedSchoolYear := selectedSchoolYear state;
     selectedTestId := Some payload;
     loading := loading state; error := error state |}.

Definition fetchDataStart (state : t) : t :=
  {| students := students state; scores := scores state;
     aggregateScores := aggregateScores state;
     historicalPerformance := historicalPerformance state;
     selectedSchoolId := selectedSchoolId state;
     selectedSchoolYear := selectedSchoolYear state;
     selectedTestId := selectedTestId state;
     loading := true; error := None |}.

Definition fetchDataSuccess (state : t) (payload : DashboardData.t) : t :=
  {| students := DashboardData.Students payload;
     scores := DashboardData.Scores payload;
     aggregateScores := Some (DashboardData.AggregateScores payload);
     historicalPerformance := DashboardData.HistoricalPerformance payload;
     selectedSchoolId := selectedSchoolId state;
     selectedSchoolYear := selectedSchoolYear state;
     selectedTestId := selectedTestId state;
     loading := false; error := None |}.

Definition fetchDataFailure (state : t) (payload : string) : t :=
  {| students := students state; scores := scores state;
     aggregateScores := aggregateScores state;
     historicalPerformance := historicalPerformance state;
     selectedSchoolId := selectedSchoolId state;
     selectedSchoolYear := selectedSchoolYear state;
     selectedTestId := selectedTestId state;
     loading := false; error := Some payload |}.

Definition clearDashboardData (state : t) : t :=
  {| students := []; scores := [];
     aggregateScores := None;
     historicalPerformance := [];
     selectedSchoolId := selectedSchoolId state;
     selectedSchoolYear := selectedSchoolYear state;
     selectedTestId := selectedTestId state;
     loading := loading state; error := error state |}.
End Reducers.

(** The actions that the slice exports, and the reducer of the slice. *)
Inductive DashboardAction :=
| SetSelectedSchool (payload : string)
| SetSelectedSchoolYear (payload : string)
| SetSelectedTest (payload : string)
| FetchDataStart
| FetchDataSuccess (payload : DashboardData.t)
| FetchDataFailure (payload : string)
| ClearDashboardData.

Definition dashboardReducer (state : DashboardState.t) (action : DashboardAction)
  : DashboardState.t :=
  match action with
  | SetSelectedSchool payload => setSelectedSchool state payload
  | SetSelectedSchoolYear payload => setSelectedSchoolYear state payload
  | SetSelectedTest payload => setSelectedTest state payload
  | FetchDataStart => fetchDataStart state
  | FetchDataSuccess payload => fetchDataSuccess state payload
  | FetchDataFailure payload => fetchDataFailure state payload
  | ClearDashboardData => clearDashboardData state
  end.

(** [components/StudentList.tsx] *)
Module StudentList.
Definition getStudentScore (scores : list StudentScore.t) (studentId : string)
  : option StudentScore.t :=
  List.find (fun s => String.eqb (StudentScore.StudentId s) studentId) scores.

Definition getScoreColor (score : Z) : string :=
  if 90 <=? score then "text-green-700 bg-green-100"
  else if 80 <=? score then "text-blue-700 bg-blue-100"
  else if 70 <=? score then "text-yellow-700 bg-yellow-100"
  else "text-red-700 bg-red-100".

(** The cells of one table row; a score cell is the colour classes and the
    score of its badge, or nothing when the cell reads N/A. *)
Record Row := mkRow
  { StudentIdCell : string; NameCell : string; GradeCell : string;
    ScoreCell : option (string * Z); PercentileCell : string }.

Definition rows (students : list Student.t) (scores : list StudentScore.t)
  : list Row :=
  map (fun student =>
         let scoreData := getStudentScore scores (Student.Id student) in
         {| StudentIdCell := Student.StudentId student;
            NameCell := Student.FirstName student +:+ " "
                        +:+ Student.LastName student;
            GradeCell := Student.Grade student;
            ScoreCell :=
              match scoreData with
              | Some scoreData =>
                  Some (getScoreColor (StudentScore.Score scoreData),
                        StudentScore.Score scoreData)
              | None => None
              end;
            PercentileCell :=
              match scoreData with
              | Some scoreData =>
                  pretty (StudentScore.Percentile scoreData) +:+ "%"
              | None => "N/A"
              end |})
      students.
End StudentList.

(** [services/api.ts]. The browser keeps the token of the last login in its
    local storage, and the request interceptor sends it along when there is
    one. A call resolves with the body of a 2xx answer and otherwise rejects
    with an error that carries the status. *)
Record Browser := { localStorage_token : option Jwt.t }.

Record AxiosError := { status : Z; message : string }.

Definition StatusOfResponse (r : HttpResponse) : Z :=
  match r with
  | Challenge => 401
  | FromLogin r => StatusOf r
  | FromSchools r => StatusOf r
  | FromTests r => StatusOf r
  | FromDashboard r => StatusOf r
  end.

Definition RequestFailed (status : Z) : AxiosError :=
  {| status := status;
     message := "Request failed with status code " +:+ pretty status |}.

Section Client.
Variable data : DataDirectory.
Variable svc : TokenService.

(** [apiClient.get] and [apiClient.post]: the request with the bearer token
    of the local storage, handled by the server; an exception that escapes
    the server would be answered 500. *)
Definition apiClient (browser : Browser) (route : Route)
  : Server -> list IDataService.Call * Server * (AxiosError + HttpResponse) :=
  fun s =>
    match Handle data svc
                 {| Bearer := localStorage_token browser; Action := route |} s
    with
    | (calls, s', Returned response) =>
        if (200 <=? StatusOfResponse response)
           && (StatusOfResponse response <? 300)
        then (calls, s', inr response)
        else (calls, s', inl (RequestFailed (StatusOfResponse response)))
    | (calls, s', Thrown _) => (calls, s', inl (RequestFailed 500))
    end.

Definition getDashboardData (browser : Browser)
  (schoolId schoolYear testId : string)
  : Server -> list IDataService.Call * Server * (AxiosError + DashboardData.t) :=
  fun s =>
    match apiClient browser
            (GET_dashboard (Some schoolId) (Some schoolYear) (Some testId)) s
    with
    | (calls, s', inr (FromDashboard (Ok responseData))) =>
        (calls, s', inr responseData)
    | (calls, s', inr other) =>
        (calls, s', inl (RequestFailed (StatusOfResponse other)))
    | (calls, s', inl error) => (calls, s', inl error)
    end.

(** [loginUser]: the token of a successful login goes to the local storage;
    a failure is rethrown as one of two messages. *)
Definition loginUser (browser : Browser) (credentials : LoginRequest.t)
  : Server -> list IDataService.Call * Server * Browser
              * (string + LoginResponse.t) :=
  fun s =>
    match apiClient browser (POST_auth_login credentials) s with
    | (calls, s', inr (FromLogin (Ok responseData))) =>
        (calls, s',
         {| localStorage_token := Some (LoginResponse.Token responseData) |},
         inr responseData)
    | (calls, s', inr _) => (calls, s', browser, inl "Login failed")
    | (calls, s', inl error) =>
        (calls, s', browser,
         inl (if status error =? 401 then "Invalid credentials"
              else "Login failed"))
    end.

(** A JavaScript string or [null] used as a condition. *)
Definition falsy (value : option string) : bool :=
  match value with
  | None => true
  | Some value => String.eqb value ""
  end.

(** [loadDashboardData] of [pages/Dashboard.tsx], with the store it
    dispatches to. *)
Definition loadDashboardData (browser : Browser) (state : DashboardState.t)
  : Server -> list IDataService.Call * Server * DashboardState.t :=
  fun s =>
    if falsy (DashboardState.selectedSchoolId state)
       || falsy (DashboardState.selectedSchoolYear state)
       || falsy (DashboardState.selectedTestId state)
    then ([], s, state)
    else
      let state := dashboardReducer state FetchDataStart in
      match getDashboardData browser
              (fmt (DashboardState.selectedSchoolId state))
              (fmt (DashboardState.selectedSchoolYear state))
              (fmt (DashboardState.selectedTestId state)) s
      with
      | (calls, s', inr data) =>
          (calls, s', dashboardReducer state (FetchDataSuccess data))
      | (calls, s', inl error) =>
          (calls, s', dashboardReducer state (FetchDataFailure (message error)))
      end.
End Client.

(** ** Vocabulary of the further statements *)

(** Every cache entry holds the kind of object that its key is used for. *)
Definition WellTyped (s : Server) : Prop :=
  forall k e,
    Entries s !! k = Some e ->
    match Value e with
    | ObjDashboard _ =>
        exists schoolId schoolYear testId, k = cacheKey schoolId schoolYear testId
    | ObjSchools _ => k = "schools"
    | ObjTests _ => k = "tests"
    end.

(** The time to live that the controllers give to an object. *)
Definition TimeToLive (o : CacheObject) : Z :=
  match o with
  | ObjDashboard _ => 600000
  | ObjSchools _ | ObjTests _ => 1800000
  end.

(** No entry expires later than its time to live from now. *)
Definition WithinTimeToLive (s : Server) : Prop :=
  forall k e,
    Entries s !! k = Some e ->
    AbsoluteExpiration e <= UtcNow s + TimeToLive (Value e).

(** The store has lists to show only together with aggregate scores. *)
Definition NoDataWithoutAggregate (state : DashboardState.t) : Prop :=
  DashboardState.aggregateScores state = None ->
  DashboardState.students state = [] /\
  DashboardState.scores state = [] /\
  DashboardState.historicalPerformance state = [].

(** The store shows the same dashboard in two states. *)
Definition SameDashboard (state state' : DashboardState.t) : Prop :=
  DashboardState.students state' = DashboardState.students state /\
  DashboardState.scores state' = DashboardState.scores state /\
  DashboardState.aggregateScores state' = DashboardState.aggregateScores state /\
  DashboardState.historicalPerformance state'
  = DashboardState.historicalPerformance state.

(** The teacher has picked a school, a year and a test. *)
Definition CompleteSelection (state : DashboardState.t) : Prop :=
  falsy (DashboardState.selectedSchoolId state)
  || falsy (DashboardState.selectedSchoolYear state)
  || falsy (DashboardState.selectedTestId state) = false.

(** ** The same arithmetic on IEEE doubles

    The helpers above compute over exact rationals. The module below does
    the same steps on binary64 values, to replay a concrete class average bit
    for bit: [Enumerable.Average] divides the sum by the count as doubles,
    [Math.Round(double)] adds and subtracts 2^52 so that the addition itself
    rounds to the nearest even integer, and [Math.Round(double, int)] scales
    by a power of ten around it. *)
Module Binary64.
Definition of_long (z : Z) : float :=
  if z <? 0 then PrimFloat.opp (of_uint63 (Uint63.of_Z (- z)))
  else of_uint63 (Uint63.of_Z z).

Definition Average (scores : list Z) : float :=
  PrimFloat.div (of_long (fold_left Z.add scores 0))
                (of_long (Z.of_nat (length scores))).

Definition IntegerBoundary : float := 4503599627370496%float.

Definition CopySign (x y : float) : float :=
  if get_sign y then (- abs x)%float else abs x.

Definition Round (a : float) : float :=
  if (IntegerBoundary <=? abs a)%float then a
  else
    let temp := CopySign IntegerBoundary a in
    CopySign ((a + temp) - temp)%float a.

Definition Math_Round (value : float) (digits : nat) : float :=
  let power10 := of_long (10 ^ Z.of_nat digits) in
  PrimFloat.div (Round (PrimFloat.mul value power10)) power10.
End Binary64.

(** ** Doubles and rationals side by side

    The rationals above are an exact account of the doubles of the runtime
    only as long as the doubles can tell the tenths apart. The definitions
    below compare the two computations of a class average for one sum and one
    count of scores, and over every sum and count that a class of bounded size
    with bounded scores can have. *)

(** The double nearest to a whole number of tenths: a double holds both
    integers exactly, and the division rounds once, to the nearest double. *)
Definition NearestDouble (tenths : Z) : float :=
  PrimFloat.div (Binary64.of_long tenths) (Binary64.of_long 10).

(** The class average of [count] scores that add up to [sum], computed on
    doubles, is the double nearest to the tenth that the same steps give on
    rationals. *)
Definition SameTenth (sum count : Z) : bool :=
  PrimFloat.eqb
    (Binary64.Math_Round
       (PrimFloat.div (Binary64.of_long sum) (Binary64.of_long count)) 1)
    (NearestDouble
       (Round (Qred (inject_Z sum / inject_Z count) * inject_Z (10 ^ Z.of_nat 1)))).

(** [f] holds of the [howMany] integers from [first] on. *)
Fixpoint all_from (f : Z -> bool) (first : Z) (howMany : nat) : bool :=
  match howMany with
  | O => true
  | S howMany' => f first && all_from f (first + 1) howMany'
  end.

(** [SameTenth] holds of every class of 1 to [classSize] scores between 0 and
    [maxScore]. *)
Definition SameTenthUpTo (classSize maxScore : Z) : bool :=
  all_from
    (fun count =>
       all_from (fun sum => SameTenth sum count) 0
                (Z.to_nat (maxScore * count + 1)))
    1 (Z.to_nat classSize).

(** The actions that leave the dashboard held by the store alone. *)
Definition KeepsDashboard (action : DashboardAction) : Prop :=
  match action with
  | FetchDataSuccess _ | ClearDashboardData => False
  | _ => True
  end.

(** ** Sample data *)

Definition boot : Server := {| UtcNow := 0; Entries := ∅ |}.

Definition roster : list Student.t :=
  [ Student.mk "1" "Emma" "Johnson" "STU001" "5";
    Student.mk "2" "Liam" "Williams" "STU002" "5";
    Student.mk "3" "Olivia" "Brown" "STU003" "5" ].

Definition score (studentId testId : string) (points : Z) : StudentScore.t :=
  StudentScore.mk studentId testId points 50 "2025-10-15".

Definition directory (scores : list StudentScore.t) : DataDirectory :=
  {| users_json :=
       JsonArray [ User.mk "1" "teacher" "password" "John Smith"
                           "teacher@school.edu" "teacher" ];
     schools_json := JsonArray [ School.mk "1" "Lincoln Elementary" "North" ];
     tests_json := JsonArray [ Test.mk "2" "Interim Math" "Math" 100 ];
     students_json := JsonArray roster;
     scores_json := JsonArray scores;
     historicalPerformance_json := JsonArray [] |}.

(** The example of the specification: two scores of test 2, one of test 1. *)
Definition sample : DataDirectory :=
  directory [ score "1" "2" 80; score "2" "2" 90; score "3" "1" 50 ].

(** Four scores of test 2 whose mean, 80.25, is a midpoint of two tenths. *)
Definition midpoint : DataDirectory :=
  directory [ score "1" "2" 80; score "2" "2" 80; score "3" "2" 81;
              score "4" "2" 80 ].

(** A toy keyed hash, enough to tell a signed token from a forged one. *)
Definition service : TokenService :=
  {| Settings :=
       {| JwtSettings.Secret := "server-held-secret";
          JwtSettings.Issuer := "TeacherDashboardAPI";
          JwtSettings.Audience := "TeacherDashboardClient";
          JwtSettings.ExpirationMinutes := 60 |};
     Hmac := fun key claims =>
       key +:+ "|" +:+ Jwt.NameIdentifier claims +:+ "|" +:+ Jwt.Name claims
           +:+ "|" +:+ Jwt.Role claims |}.

(** The students file is gone, the scores are still there. *)
Definition rosterless : DataDirectory :=
  {| users_json := users_json sample;
     schools_json := schools_json sample;
     tests_json := tests_json sample;
     students_json := Absent;
     scores_json := scores_json sample;
     historicalPerformance_json := historicalPerformance_json sample |}.

(** A few minutes of traffic: time passes, a teacher logs in, a request
    without a token is turned away, more time passes. *)
Definition traffic : list Event :=
  [ Elapse 1000;
    Receive {| Bearer := None;
               Action := POST_auth_login (LoginRequest.mk "teacher" "password") |};
    Receive {| Bearer := None; Action := GET_tests |};
    Elapse 300000 ].

(** A process whose cache holds expired entries under all three kinds of key. *)
Definition stale : Server :=
  {| UtcNow := 2000000;
     Entries :=
       <[ cacheKey (Some "SCH1") (Some "2025-2026") (Some "2") :=
            {| Value := ObjDashboard
                          (FreshDashboard midpoint (Some "2025-2026") (Some "2"));
               AbsoluteExpiration := 600600 |} ]>
       (<[ "tests" := {| Value := ObjTests []; AbsoluteExpiration := 1800300 |} ]>
       (<[ "schools" := {| Value := ObjSchools [];
                           AbsoluteExpiration := 2000000 |} ]> ∅)) |}.

(** The token that a login of the teacher at start-up is answered with. *)
Definition badge : Jwt.t :=
  let claims :=
    {| Jwt.NameIdentifier := "1"; Jwt.Name := "teacher"; Jwt.Role := "teacher";
       Jwt.Issuer := "TeacherDashboardAPI";
       Jwt.Audience := "TeacherDashboardClient";
       Jwt.Expires := 3600800 |} in
  {| Jwt.Payload := claims;
     Jwt.Signature := Hmac service "server-held-secret" claims |}.

(** The badge with another user's name written over it. *)
Definition forged : Jwt.t :=
  {| Jwt.Payload :=
       {| Jwt.NameIdentifier := "7"; Jwt.Name := "admin"; Jwt.Role := "admin";
          Jwt.Issuer := "TeacherDashboardAPI";
          Jwt.Audience := "TeacherDashboardClient";
          Jwt.Expires := 3600800 |};
     Jwt.Signature := Jwt.Signature badge |}.

(** The teacher opens the dashboard of test 2 and the list of schools. *)
Definition visits : list Event :=
  [ Receive {| Bearer := Some badge;
               Action := GET_dashboard (Some "SCH1") (Some "2025-2026")
                                       (Some "2") |};
    Elapse 1000;
    Receive {| Bearer := Some badge; Action := GET_schools |} ].

(** Scores of the tests "T9" and "2026_T9". *)
Definition overlapping : DataDirectory :=
  directory [ score "1" "T9" 80; score "2" "2026_T9" 60 ].

(** The first student has two records of test 2, one the same as the other. *)
Definition resubmitted : DataDirectory :=
  directory [ score "1" "2" 80; score "3" "1" 50; score "1" "2" 80;
              score "2" "2" 90 ].

(** The scores file holds text that is not a JSON array of scores. *)
Definition garbled : DataDirectory :=
  {| users_json := users_json sample;
     schools_json := schools_json sample;
     tests_json := tests_json sample;
     students_json := students_json sample;
     scores_json := Malformed;
     historicalPerformance_json := historicalPerformance_json sample |}.

(** The process an hour and more after start-up, the cache still empty. *)
Definition afternoon : Server := {| UtcNow := 4000000; Entries := ∅ |}.

(** Two records with the user name and the password of the teacher. *)
Definition namesakes : DataDirectory :=
  {| users_json :=
       JsonArray [ User.mk "9" "admin" "admin123" "Ada King"
                           "admin@school.edu" "admin";
                   User.mk "1" "teacher" "password" "John Smith"
                           "teacher@school.edu" "teacher";
                   User.mk "2" "teacher" "password" "Jane Smith"
                           "jane@school.edu" "teacher" ];
     schools_json := schools_json sample;
     tests_json := tests_json sample;
     students_json := students_json sample;
     scores_json := scores_json sample;
     historicalPerformance_json := historicalPerformance_json sample |}.

(** The users file is gone. *)
Definition userless : DataDirectory :=
  {| users_json := Absent;
     schools_json := schools_json sample;
     tests_json := tests_json sample;
     students_json := students_json sample;
     scores_json := scores_json sample;
     historicalPerformance_json := historicalPerformance_json sample |}.

(** The store after the teacher has picked a school, a year and a test. *)
Definition picked : DashboardState.t :=
  fold_left dashboardReducer
    [ SetSelectedSchool "SCH1"; SetSelectedSchoolYear "2025-2026";
      SetSelectedTest "2" ]
    initialState.

(** The store with the dashboard of test 2 loaded, and test 1 picked since. *)
Definition repicked : DashboardState.t :=
  fold_left dashboardReducer
    [ FetchDataStart;
      FetchDataSuccess (FreshDashboard sample (Some "2025-2026") (Some "2"));
      SetSelectedTest "1" ]
    picked.

(** * Properties *)

(** ** Running the pieces *)

Lemma ReadJsonFileAsync_readable {T} (f : JsonFile T) (s : Server) :
  readable f = true -> ReadJsonFileAsync f s = ([], s, Returned (items f)).
Proof. destruct f; simpl; intros H; try discriminate; reflexivity. Qed.

Lemma ReadJsonFileAsync_throws {T} (f : JsonFile T) (s : Server) :
  readable f = false -> exists e, ReadJsonFileAsync f s = ([], s, Thrown e).
Proof. destruct f; simpl; intros H; try discriminate; eexists; reflexivity. Qed.

Lemma Average_fold (l : list StudentScore.t) (sum count : Z) :
  fold_left (fun '(sum, count) x => (sum + StudentScore.Score x, count + 1))
            l (sum, count)
  = (sum + total l, count + Z.of_nat (length l)).
Proof.
  revert sum count. induction l as [|x l IH]; intros sum count.
  - simpl. f_equal; lia.
  - cbn [fold_left]. rewrite IH. unfold total. cbn [fold_right length].
    f_equal; lia.
Qed.

Lemma Average_nonempty (l : list StudentScore.t) (s : Server) :
  l <> [] ->
  Average StudentScore.Score l s = ([], s, Returned (Qred (mean l))).
Proof.
  intros Hne. unfold Average. rewrite Average_fold.
  rewrite !Z.add_0_l.
  destruct (Z.eqb_spec (Z.of_nat (length l)) 0) as [E|E].
  - destruct l; [congruence | simpl in E; lia].
  - reflexivity.
Qed.

Lemma IsNullOrEmpty_spec (p : option string) :
  IsNullOrEmpty p = true <-> MissingOrEmpty p.
Proof.
  unfold MissingOrEmpty. destruct p as [[|c r]|]; simpl; split; intros H;
    try discriminate; auto; destruct H as [H|H]; congruence.
Qed.

Lemma ValidQuery_guard (schoolId schoolYear testId : option string) :
  ValidQuery schoolId schoolYear testId <->
  IsNullOrEmpty schoolId || IsNullOrEmpty schoolYear || IsNullOrEmpty testId
  = false.
Proof.
  unfold ValidQuery. rewrite <- !IsNullOrEmpty_spec.
  destruct (IsNullOrEmpty schoolId), (IsNullOrEmpty schoolYear),
    (IsNullOrEmpty testId); simpl; intuition congruence.
Qed.

Ltac run_task :=
  unfold GetDashboardData, GetTests, GetSchools, Login, try_catch, bind,
    TryGetValue, Task_Delay, Set_, ret, throw, GetStudentsAsync,
    GetScoresAsync, GetHistoricalPerformanceAsync, GetTestsAsync,
    GetSchoolsAsync, GetUsersAsync, invoke, GenerateToken.

Section DashboardRuns.
Variable data : DataDirectory.
Variables schoolId schoolYear testId : option string.
Variable s : Server.

Let key := cacheKey schoolId schoolYear testId.

Lemma GetDashboardData_invalid :
  IsNullOrEmpty schoolId || IsNullOrEmpty schoolYear || IsNullOrEmpty testId
  = true ->
  GetDashboardData data schoolId schoolYear testId s
  = ([], s, Returned (BadRequest "schoolId, schoolYear, and testId are required")).
Proof. intros G. run_task. rewrite G. reflexivity. Qed.

Hypothesis guard :
  IsNullOrEmpty schoolId || IsNullOrEmpty schoolYear || IsNullOrEmpty testId
  = false.

Lemma GetDashboardData_hit (d : DashboardData.t) :
  CachedDashboard s key = Some d ->
  GetDashboardData data schoolId schoolYear testId s
  = ([], s, Returned (Ok d)).
Proof.
  intros H. run_task. rewrite guard. unfold CachedDashboard, key in H.
  rewrite H. reflexivity.
Qed.

Lemma GetDashboardData_miss :
  CachedDashboard s key = None ->
  readable (students_json data) = true ->
  readable (scores_json data) = true ->
  readable (historicalPerformance_json data) = true ->
  GetDashboardData data schoolId schoolYear testId s
  = ([IDataService.GetStudents; IDataService.GetScores;
      IDataService.GetHistoricalPerformance],
     Stored (Later s 600) key
            (ObjDashboard (FreshDashboard data schoolYear testId))
            (FromMinutes 10),
     Returned (Ok (FreshDashboard data schoolYear testId))).
Proof.
  intros H R1 R2 R3. run_task. rewrite guard.
  unfold CachedDashboard, key in H. rewrite H.
  rewrite !ReadJsonFileAsync_readable by assumption.
  fold (matching testId (items (scores_json data))).
  unfold FreshDashboard.
  destruct (matching testId (items (scores_json data))) as [|x l] eqn:E.
  - reflexivity.
  - cbn [Any]. rewrite Average_nonempty by discriminate. reflexivity.
Qed.

Lemma GetDashboardData_miss_throws :
  CachedDashboard s key = None ->
  readable (students_json data) && readable (scores_json data)
  && readable (historicalPerformance_json data) = false ->
  exists calls,
    calls <> [] /\
    GetDashboardData data schoolId schoolYear testId s
    = (calls, Later s 600,
       Returned (StatusCode 500
                   "An error occurred while retrieving dashboard data")).
Proof.
  intros H R. run_task. rewrite guard.
  unfold CachedDashboard, key in H. rewrite H.
  destruct (readable (students_json data)) eqn:R1.
  2:{ destruct (ReadJsonFileAsync_throws _ (Later s 600) R1) as [e He].
      unfold Later in He. rewrite He. eexists; split; [|reflexivity].
      discriminate. }
  rewrite (ReadJsonFileAsync_readable _ _ R1).
  destruct (readable (scores_json data)) eqn:R2.
  2:{ destruct (ReadJsonFileAsync_throws _ (Later s 600) R2) as [e He].
      unfold Later in He. rewrite He. eexists; split; [|reflexivity].
      discriminate. }
  rewrite (ReadJsonFileAsync_readable _ _ R2).
  simpl in R.
  destruct (ReadJsonFileAsync_throws _ (Later s 600) R) as [e He].
  unfold Later in He. rewrite He. eexists; split; [|reflexivity].
  discriminate.
Qed.
End DashboardRuns.

(** ** Rounding *)

Lemma Round_nearest (a : Q) :
  (- (1 # 2) <= inject_Z (Round a) - a <= 1 # 2)%Q.
Proof.
  unfold Round.
  pose proof (Qfloor_le a) as Hlo. pose proof (Qlt_floor a) as Hhi.
  rewrite inject_Z_plus in Hhi.
  destruct (a - inject_Z (Qfloor a) ?= 1 # 2)%Q eqn:C.
  - apply Qeq_alt in C. destruct (Z.even (Qfloor a));
      rewrite ?inject_Z_plus; change (inject_Z 1) with 1%Q in *; lra.
  - apply Qlt_alt in C. change (inject_Z 1) with 1%Q in *. lra.
  - apply Qgt_alt in C. rewrite inject_Z_plus.
    change (inject_Z 1) with 1%Q in *. lra.
Qed.

Lemma Round_midpoint_even (a : Q) :
  (inject_Z (Round a) - a == 1 # 2 \/ inject_Z (Round a) - a == - (1 # 2))%Q ->
  Z.even (Round a) = true.
Proof.
  unfold Round.
  pose proof (Qfloor_le a) as Hlo. pose proof (Qlt_floor a) as Hhi.
  rewrite inject_Z_plus in Hhi.
  destruct (a - inject_Z (Qfloor a) ?= 1 # 2)%Q eqn:C.
  - intros _. destruct (Z.even (Qfloor a)) eqn:E; [assumption|].
    rewrite Z.even_add, E. reflexivity.
  - apply Qlt_alt in C. change (inject_Z 1) with 1%Q in *.
    intros [H|H]; lra.
  - apply Qgt_alt in C. rewrite inject_Z_plus.
    change (inject_Z 1) with 1%Q in *. intros [H|H]; lra.
Qed.

Lemma Qabs_eq_cases (x c : Q) : (Qabs x == c -> x == c \/ x == - c)%Q.
Proof.
  intros H. destruct (Qlt_le_dec x 0) as [Hn|Hp].
  - right. rewrite Qabs_neg in H by lra. lra.
  - left. rewrite Qabs_pos in H by lra. lra.
Qed.

(** [Math.Round(value, 1)] is a whole number of tenths, at most half a
    tenth away from [value], and an even number of tenths at a midpoint. *)
Lemma Math_Round_one_decimal (value : Q) :
  exists tenths : Z,
    (Math_Round value 1 == inject_Z tenths / 10)%Q /\
    (Qabs (Math_Round value 1 - value) <= 1 # 20)%Q /\
    ((Qabs (Math_Round value 1 - value) == 1 # 20)%Q -> Z.even tenths = true).
Proof.
  exists (Round (value * 10)).
  assert (T10 : (/ 10 == 1 # 10)%Q) by reflexivity.
  assert (E : (Math_Round value 1
               == inject_Z (Round (value * 10)) * (1 # 10))%Q).
  { unfold Math_Round. rewrite Qred_correct. unfold Qdiv.
    change (inject_Z (10 ^ Z.of_nat 1)) with 10%Q. rewrite T10. reflexivity. }
  pose proof (Round_nearest (value * 10)) as N.
  split; [| split].
  - rewrite E. unfold Qdiv. rewrite T10. reflexivity.
  - rewrite E. apply Qabs_Qle_condition. lra.
  - intros T. rewrite E in T. apply Qabs_eq_cases in T.
    apply Round_midpoint_even. destruct T as [T|T]; [left|right]; lra.
Qed.

(** ** The class average *)

Lemma op_Equality_true (a : string) (b : option string) :
  op_Equality a b = true <-> b = Some a.
Proof.
  destruct b as [b|]; simpl; [|split; discriminate].
  rewrite String.eqb_eq. split; congruence.
Qed.

Lemma matching_none (testId : option string) (scores : list StudentScore.t) :
  (forall sc, In sc scores -> testId <> Some (StudentScore.TestId sc)) ->
  matching testId scores = [].
Proof.
  intros H. induction scores as [|sc l IH]; [reflexivity|].
  unfold matching in *. cbn [List.filter].
  destruct (op_Equality (StudentScore.TestId sc) testId) eqn:E.
  - apply op_Equality_true in E. exfalso. apply (H sc); [left; reflexivity|exact E].
  - apply IH. intros x Hx. apply H. right. exact Hx.
Qed.

(** C1. When no score of the repository carries the queried test id, the
    aggregation run by [GetDashboardData] completes with an [Ok] answer whose
    class average is 0 over an empty set of scores: the average of an empty
    sequence, which would throw, is never taken. *)
Theorem no_matching_score_class_average_zero
  (data : DataDirectory) (schoolId schoolYear testId : option string)
  (s : Server) :
  ValidQuery schoolId schoolYear testId ->
  CachedDashboard s (cacheKey schoolId schoolYear testId) = None ->
  readable (students_json data) = true ->
  readable (scores_json data) = true ->
  readable (historicalPerformance_json data) = true ->
  (forall sc, In sc (items (scores_json data)) ->
              testId <> Some (StudentScore.TestId sc)) ->
  exists calls s' d,
    GetDashboardData data schoolId schoolYear testId s
    = (calls, s', Returned (Ok d)) /\
    AggregateScore.ClassAverage (DashboardData.AggregateScores d) = 0%Q /\
    DashboardData.Scores d = [].
Proof.
  intros V M R1 R2 R3 N. apply ValidQuery_guard in V.
  do 3 eexists. split.
  - apply GetDashboardData_miss; assumption.
  - unfold FreshDashboard. cbn [DashboardData.AggregateScores
      AggregateScore.ClassAverage DashboardData.Scores].
    rewrite (matching_none _ _ N). split; reflexivity.
Qed.

Lemma no_matching_score_class_average_zero_witness :
  exists calls s' d,
    GetDashboardData sample (Some "SCH1") (Some "2025-2026") (Some "T9") boot
    = (calls, s', Returned (Ok d)) /\
    AggregateScore.ClassAverage (DashboardData.AggregateScores d) = 0%Q /\
    DashboardData.Scores d = [].
Proof.
  apply (no_matching_score_class_average_zero sample (Some "SCH1")
           (Some "2025-2026") (Some "T9") boot).
  - unfold ValidQuery, MissingOrEmpty. repeat split; intros [H|H]; discriminate.
  - reflexivity.
  - reflexivity.
  - reflexivity.
  - reflexivity.
  - simpl. intros sc [H|[H|[H|[]]]]; subst sc; discriminate.
Defined.

(** [Math.Round(value, 1)] with the whole number of tenths it lands on. *)
Lemma Math_Round_tenths (value : Q) :
  let tenths := Round (value * inject_Z (10 ^ Z.of_nat 1)) in
  (Math_Round value 1 == inject_Z tenths / 10)%Q /\
  (Qabs (Math_Round value 1 - value) <= 1 # 20)%Q /\
  ((Qabs (Math_Round value 1 - value) == 1 # 20)%Q -> Z.even tenths = true).
Proof.
  change (inject_Z (10 ^ Z.of_nat 1)) with 10%Q. cbv zeta.
  assert (T10 : (/ 10 == 1 # 10)%Q) by reflexivity.
  assert (E : (Math_Round value 1
               == inject_Z (Round (value * 10)) * (1 # 10))%Q).
  { unfold Math_Round. rewrite Qred_correct. unfold Qdiv.
    change (inject_Z (10 ^ Z.of_nat 1)) with 10%Q. rewrite T10. reflexivity. }
  pose proof (Round_nearest (value * 10)) as N.
  split; [| split].
  - rewrite E. unfold Qdiv. rewrite T10. reflexivity.
  - rewrite E. apply Qabs_Qle_condition. lra.
  - intros T. rewrite E in T. apply Qabs_eq_cases in T.
    apply Round_midpoint_even. destruct T as [T|T]; [left|right]; lra.
Qed.

(** ** The class average on doubles *)

Lemma all_from_spec (f : Z -> bool) (first : Z) (howMany : nat) (x : Z) :
  all_from f first howMany = true ->
  first <= x < first + Z.of_nat howMany ->
  f x = true.
Proof.
  revert first. induction howMany as [|k IH]; intros first A B; [lia|].
  cbn [all_from] in A. apply andb_prop in A. destruct A as [A1 A2].
  destruct (Z.eq_dec x first) as [->|N]; [exact A1|].
  apply (IH (first + 1)); [exact A2|lia].
Qed.

(** Every sum and count of a class of at most 100 scores between 0 and 100,
    computed through: 510050 class averages on doubles, each the double
    nearest to the tenth of the rationals. *)
Lemma SameTenth_classes_of_100 : SameTenthUpTo 100 100 = true.
Proof. vm_compute. reflexivity. Qed.

Lemma SameTenthUpTo_spec (classSize maxScore sum count : Z) :
  SameTenthUpTo classSize maxScore = true ->
  1 <= count <= classSize -> 0 <= sum <= maxScore * count ->
  SameTenth sum count = true.
Proof.
  unfold SameTenthUpTo. intros T C S.
  apply (all_from_spec (fun sum => SameTenth sum count) 0
           (Z.to_nat (maxScore * count + 1)) sum); [|lia].
  apply (all_from_spec
           (fun count =>
              all_from (fun sum => SameTenth sum count) 0
                       (Z.to_nat (maxScore * count + 1)))
           1 (Z.to_nat classSize) count T).
  lia.
Qed.

Lemma SameTenth_bounded (sum count : Z) :
  1 <= count <= 100 -> 0 <= sum <= 100 * count ->
  SameTenth sum count = true.
Proof. exact (SameTenthUpTo_spec 100 100 sum count SameTenth_classes_of_100). Qed.

Lemma total_bounds (l : list StudentScore.t) (lo hi : Z) :
  (forall sc, In sc l -> lo <= StudentScore.Score sc <= hi) ->
  lo * Z.of_nat (length l) <= total l <= hi * Z.of_nat (length l).
Proof.
  induction l as [|x l IH]; intros H.
  - simpl. lia.
  - unfold total in *. cbn [fold_right length].
    specialize (IH (fun sc Hsc => H sc (or_intror Hsc))).
    pose proof (H x (or_introl eq_refl)). lia.
Qed.

Lemma fold_left_add_total (l : list StudentScore.t) (sum : Z) :
  fold_left Z.add (map StudentScore.Score l) sum = sum + total l.
Proof.
  revert sum. induction l as [|x l IH]; intros sum.
  - simpl. lia.
  - cbn [map fold_left]. rewrite IH. unfold total. cbn [fold_right]. lia.
Qed.

(** [Enumerable.Average] on doubles: the sum of the scores as a [long] over
    their number, both converted to doubles. *)
Lemma Binary64_Average_scores (l : list StudentScore.t) :
  Binary64.Average (map StudentScore.Score l)
  = PrimFloat.div (Binary64.of_long (total l))
                  (Binary64.of_long (Z.of_nat (length l))).
Proof.
  unfold Binary64.Average. rewrite fold_left_add_total, length_map.
  reflexivity.
Qed.

(** C2, as the code has it. When some score carries the queried test id, the
    class average of the computed answer is the arithmetic mean of the
    matching scores rounded to one decimal with midpoints going to the even
    tenth: it is a whole number of tenths, at most 0.05 away from the mean,
    and an even number of tenths when it is exactly 0.05 away. The runtime
    computes on doubles: for up to 100 matching scores between 0 and 100, the
    division, the scaling by ten, the rounding and the division by ten on
    doubles give the double nearest to that very tenth. *)
Theorem class_average_is_mean_rounded_half_even
  (data : DataDirectory) (schoolId schoolYear testId : option string)
  (s : Server) :
  ValidQuery schoolId schoolYear testId ->
  CachedDashboard s (cacheKey schoolId schoolYear testId) = None ->
  readable (students_json data) = true ->
  readable (scores_json data) = true ->
  readable (historicalPerformance_json data) = true ->
  matching testId (items (scores_json data)) <> [] ->
  (length (matching testId (items (scores_json data))) <= 100)%nat ->
  (forall sc, In sc (matching testId (items (scores_json data))) ->
              0 <= StudentScore.Score sc <= 100) ->
  exists calls s' d (tenths : Z),
    GetDashboardData data schoolId schoolYear testId s
    = (calls, s', Returned (Ok d)) /\
    DashboardData.Scores d = matching testId (items (scores_json data)) /\
    let average := AggregateScore.ClassAverage (DashboardData.AggregateScores d) in
    let m := mean (DashboardData.Scores d) in
    (average == inject_Z tenths / 10)%Q /\
    (Qabs (average - m) <= 1 # 20)%Q /\
    ((Qabs (average - m) == 1 # 20)%Q -> Z.even tenths = true) /\
    PrimFloat.eqb
      (Binary64.Math_Round
         (Binary64.Average (map StudentScore.Score (DashboardData.Scores d))) 1)
      (NearestDouble tenths)
    = true.
Proof.
  intros V M R1 R2 R3 N Size Range. apply ValidQuery_guard in V.
  set (l := matching testId (items (scores_json data))) in *.
  destruct (Math_Round_tenths (Qred (mean l))) as (E & B & T).
  exists [IDataService.GetStudents; IDataService.GetScores;
          IDataService.GetHistoricalPerformance].
  eexists. exists (FreshDashboard data schoolYear testId).
  exists (Round (Qred (mean l) * inject_Z (10 ^ Z.of_nat 1))).
  split; [apply GetDashboardData_miss; assumption|].
  split; [reflexivity|].
  unfold FreshDashboard. cbn [DashboardData.AggregateScores
    AggregateScore.ClassAverage DashboardData.Scores]. fold l.
  pose proof (total_bounds l 0 100 Range) as Sum.
  assert (D : SameTenth (total l) (Z.of_nat (length l)) = true).
  { apply SameTenth_bounded; [|lia]. destruct l; [congruence|simpl in *; lia]. }
  rewrite Binary64_Average_scores.
  destruct l as [|x l']; [congruence|]. cbn [Any]. cbn zeta.
  split; [exact E|]. split; [|split; [|exact D]].
  - set (r := Math_Round (Qred (mean (x :: l'))) 1) in *.
    rewrite (Qred_correct (mean (x :: l'))) in B. exact B.
  - intros H. apply T.
    set (r := Math_Round (Qred (mean (x :: l'))) 1) in *.
    rewrite (Qred_correct (mean (x :: l'))). exact H.
Qed.

Lemma class_average_is_mean_rounded_half_even_witness :
  exists calls s' d (tenths : Z),
    GetDashboardData midpoint (Some "SCH1") (Some "2025-2026") (Some "2") boot
    = (calls, s', Returned (Ok d)) /\
    DashboardData.Scores d = matching (Some "2") (items (scores_json midpoint)) /\
    let average := AggregateScore.ClassAverage (DashboardData.AggregateScores d) in
    let m := mean (DashboardData.Scores d) in
    (average == inject_Z tenths / 10)%Q /\
    (Qabs (average - m) <= 1 # 20)%Q /\
    ((Qabs (average - m) == 1 # 20)%Q -> Z.even tenths = true) /\
    PrimFloat.eqb
      (Binary64.Math_Round
         (Binary64.Average (map StudentScore.Score (DashboardData.Scores d))) 1)
      (NearestDouble tenths)
    = true.
Proof.
  apply (class_average_is_mean_rounded_half_even midpoint (Some "SCH1")
           (Some "2025-2026") (Some "2") boot).
  - unfold ValidQuery, MissingOrEmpty. repeat split; intros [H|H]; discriminate.
  - reflexivity.
  - reflexivity.
  - reflexivity.
  - reflexivity.
  - simpl. discriminate.
  - simpl. lia.
  - simpl. intros sc [H|[H|[H|[H|[]]]]]; subst sc; simpl; lia.
Defined.

(** Past such bounds the doubles can leave the tenth of the rationals. The
    199999 scores of which 189999 are 2046562351 and 10000 are 2046562352
    have the mean 2046562351.05000025, which is nearest to the tenth
    2046562351.1; on doubles the class average of that sum over that count
    comes out as 2046562351.0. *)
Example doubles_leave_the_tenth_of_large_scores :
  let sum := 189999 * 2046562351 + 10000 * 2046562352 in
  let count := 189999 + 10000 in
  PrimFloat.eqb
    (Binary64.Math_Round
       (PrimFloat.div (Binary64.of_long sum) (Binary64.of_long count)) 1)
    (Binary64.of_long 2046562351)
  = true /\
  Round (Qred (inject_Z sum / inject_Z count) * inject_Z (10 ^ Z.of_nat 1))
  = 20465623511 /\
  SameTenth sum count = false.
Proof. repeat split; vm_compute; reflexivity. Qed.

(** The example of the specification: the mean of 80 and 90 is 85.0 over two
    participants, the score of the other test left out. *)
Example sample_query_mean_85 :
  exists calls s' d,
    GetDashboardData sample (Some "SCH1") (Some "2025-2026") (Some "2") boot
    = (calls, s', Returned (Ok d)) /\
    AggregateScore.ClassAverage (DashboardData.AggregateScores d) = 85%Q /\
    length (DashboardData.Scores d) = 2%nat.
Proof. do 3 eexists. split; [vm_compute; reflexivity|]. split; reflexivity. Qed.

(** C2, as the specification words it, fails: the scores 80, 80, 81, 80 have
    the mean 80.25, which rounds to 80.3 with midpoints away from zero, and
    the class average of the answer is 80.2. *)
Lemma class_average_not_rounded_half_away_from_zero :
  exists calls s' d,
    GetDashboardData midpoint (Some "SCH1") (Some "2025-2026") (Some "2") boot
    = (calls, s', Returned (Ok d)) /\
    DashboardData.Scores d <> [] /\
    (mean (DashboardData.Scores d) == 80.25)%Q /\
    (RoundHalfAwayFromZero (mean (DashboardData.Scores d)) 1 == 80.3)%Q /\
    (AggregateScore.ClassAverage (DashboardData.AggregateScores d) == 80.2)%Q /\
    ~ (AggregateScore.ClassAverage (DashboardData.AggregateScores d)
       == RoundHalfAwayFromZero (mean (DashboardData.Scores d)) 1)%Q.
Proof.
  do 3 eexists. split; [vm_compute; reflexivity|].
  cbn [DashboardData.Scores DashboardData.AggregateScores
       AggregateScore.ClassAverage].
  repeat split; try (vm_compute; congruence).
Qed.

(** The same four scores on IEEE doubles: 80.25 and 802.5 are exact, the
    runtime rounds 802.5 to 802, and the result is the double nearest to
    80.2, not the one nearest to 80.3. *)
Example midpoint_on_doubles :
  let average := Binary64.Math_Round (Binary64.Average [80; 80; 81; 80]) 1 in
  (average =? 0x1.40ccccccccccdp+6)%float = true /\
  (average =? 0x1.4133333333333p+6)%float = false.
Proof. split; vm_compute; reflexivity. Qed.

(** ** Invalid queries *)

Lemma guard_true_iff (schoolId schoolYear testId : option string) :
  IsNullOrEmpty schoolId || IsNullOrEmpty schoolYear || IsNullOrEmpty testId
  = true
  <-> MissingOrEmpty schoolId \/ MissingOrEmpty schoolYear
      \/ MissingOrEmpty testId.
Proof.
  rewrite <- !IsNullOrEmpty_spec.
  destruct (IsNullOrEmpty schoolId), (IsNullOrEmpty schoolYear),
    (IsNullOrEmpty testId); simpl; intuition congruence.
Qed.

(** The four ways a dashboard request can go. *)
Lemma GetDashboardData_cases (data : DataDirectory)
  (schoolId schoolYear testId : option string) (s : Server) :
  let key := cacheKey schoolId schoolYear testId in
  let run := GetDashboardData data schoolId schoolYear testId s in
  (IsNullOrEmpty schoolId || IsNullOrEmpty schoolYear || IsNullOrEmpty testId
   = true /\
   run = ([], s, Returned (BadRequest "schoolId, schoolYear, and testId are required")))
  \/ (IsNullOrEmpty schoolId || IsNullOrEmpty schoolYear
      || IsNullOrEmpty testId = false /\
      ((exists d, CachedDashboard s key = Some d /\ run = ([], s, Returned (Ok d)))
       \/ (CachedDashboard s key = None /\
           run = ([IDataService.GetStudents; IDataService.GetScores;
                   IDataService.GetHistoricalPerformance],
                  Stored (Later s 600) key
                         (ObjDashboard (FreshDashboard data schoolYear testId))
                         (FromMinutes 10),
                  Returned (Ok (FreshDashboard data schoolYear testId))))
       \/ (CachedDashboard s key = None /\
           exists calls, calls <> [] /\
             run = (calls, Later s 600,
                    Returned (StatusCode 500
                      "An error occurred while retrieving dashboard data"))))).
Proof.
  intros key run.
  destruct (IsNullOrEmpty schoolId || IsNullOrEmpty schoolYear
            || IsNullOrEmpty testId) eqn:G.
  - left. split; [reflexivity|]. apply GetDashboardData_invalid. exact G.
  - right. split; [reflexivity|].
    destruct (CachedDashboard s key) as [d|] eqn:C.
    + left. exists d. split; [reflexivity|].
      apply GetDashboardData_hit; assumption.
    + right.
      destruct (readable (students_json data) && readable (scores_json data)
                && readable (historicalPerformance_json data)) eqn:R.
      * left. split; [reflexivity|].
        apply andb_prop in R. destruct R as [R R3].
        apply andb_prop in R. destruct R as [R1 R2].
        apply GetDashboardData_miss; assumption.
      * right. split; [reflexivity|].
        apply GetDashboardData_miss_throws; assumption.
Qed.

(** C5. [GetDashboardData] always answers; the answer is a 400 exactly when
    one of the three parameters is missing or empty, and then the data
    service was not called and the process, cache included, is as before. *)
Theorem bad_request_iff_parameter_missing_or_empty
  (data : DataDirectory) (schoolId schoolYear testId : option string)
  (s : Server) :
  exists calls s' r,
    GetDashboardData data schoolId schoolYear testId s
    = (calls, s', Returned r) /\
    (StatusOf r = 400
     <-> MissingOrEmpty schoolId \/ MissingOrEmpty schoolYear
         \/ MissingOrEmpty testId) /\
    (StatusOf r = 400 -> calls = [] /\ s' = s).
Proof.
  destruct (GetDashboardData_cases data schoolId schoolYear testId s)
    as [[G E]|[G [(d & C & E)|[(C & E)|(C & calls & N & E)]]]];
    rewrite E; do 3 eexists; (split; [reflexivity|]);
    rewrite <- guard_true_iff, G; cbn [StatusOf];
    split; try (split; intros; congruence); intros; try congruence; auto.
Qed.

(** ** The other controllers *)

Lemma GetTests_cases (data : DataDirectory) (s : Server) :
  (exists l, CachedTests s = Some l /\
             GetTests data s = ([], s, Returned (Ok l)))
  \/ (CachedTests s = None /\ readable (tests_json data) = true /\
      GetTests data s
      = ([IDataService.GetTests],
         Stored (Later s 300) "tests" (ObjTests (items (tests_json data)))
                (FromMinutes 30),
         Returned (Ok (items (tests_json data)))))
  \/ (CachedTests s = None /\ readable (tests_json data) = false /\
      GetTests data s
      = ([IDataService.GetTests], Later s 300,
         Returned (StatusCode 500 "An error occurred while retrieving tests"))).
Proof.
  run_task. fold (CachedTests s).
  destruct (CachedTests s) as [l|] eqn:C.
  - left. exists l. split; reflexivity.
  - right. destruct (readable (tests_json data)) eqn:R.
    + left. rewrite (ReadJsonFileAsync_readable _ _ R). repeat split.
    + right. destruct (ReadJsonFileAsync_throws _ (Later s 300) R) as [e He].
      unfold Later in He. rewrite He. repeat split.
Qed.

Lemma GetSchools_cases (data : DataDirectory) (s : Server) :
  (exists l, CachedSchools s = Some l /\
             GetSchools data s = ([], s, Returned (Ok l)))
  \/ (CachedSchools s = None /\ readable (schools_json data) = true /\
      GetSchools data s
      = ([IDataService.GetSchools],
         Stored (Later s 300) "schools"
                (ObjSchools (items (schools_json data))) (FromMinutes 30),
         Returned (Ok (items (schools_json data)))))
  \/ (CachedSchools s = None /\ readable (schools_json data) = false /\
      GetSchools data s
      = ([IDataService.GetSchools], Later s 300,
         Returned (StatusCode 500 "An error occurred while retrieving schools"))).
Proof.
  run_task. fold (CachedSchools s).
  destruct (CachedSchools s) as [l|] eqn:C.
  - left. exists l. split; reflexivity.
  - right. destruct (readable (schools_json data)) eqn:R.
    + left. rewrite (ReadJsonFileAsync_readable _ _ R). repeat split.
    + right. destruct (ReadJsonFileAsync_throws _ (Later s 300) R) as [e He].
      unfold Later in He. rewrite He. repeat split.
Qed.

Lemma Login_server (data : DataDirectory) (svc : TokenService)
  (request : LoginRequest.t) (s : Server) :
  exists r, Login data svc request s
            = ([IDataService.GetUsers], Later s 800, Returned r).
Proof.
  run_task.
  destruct (readable (users_json data)) eqn:R.
  - rewrite (ReadJsonFileAsync_readable _ _ R).
    destruct (FirstOrDefault _ _); eexists; reflexivity.
  - destruct (ReadJsonFileAsync_throws _ (Later s 800) R) as [e He].
    unfold Later in He. rewrite He. eexists; reflexivity.
Qed.

(** ** Login *)

Lemma FirstOrDefault_Some {T} (p : T -> bool) (l : list T) (x : T) :
  FirstOrDefault p l = Some x -> In x l /\ p x = true.
Proof. apply find_some. Qed.

Lemma FirstOrDefault_None {T} (p : T -> bool) (l : list T) :
  FirstOrDefault p l = None -> forall x, In x l -> p x = false.
Proof. apply find_none. Qed.

Lemma credentials_eqb (request : LoginRequest.t) (u : User.t) :
  String.eqb (User.Username u) (LoginRequest.Username request)
  && String.eqb (User.PasswordHash u) (LoginRequest.Password request) = true
  <-> Matches request u.
Proof.
  unfold Matches. rewrite andb_true_iff, !String.eqb_eq. reflexivity.
Qed.

(** C8. With the credential file loaded, [Login] answers [Ok] if and only if
    some stored record has both the user name and the password of the
    request; the [Ok] answer carries that record's user and a token for it
    signed with the server's secret. Otherwise the answer is the 401
    [Unauthorized] with a message body, which carries no token. *)
Theorem login_ok_iff_some_credential_matches
  (data : DataDirectory) (svc : TokenService) (request : LoginRequest.t)
  (s : Server) :
  readable (users_json data) = true ->
  exists s' r,
    Login data svc request s = ([IDataService.GetUsers], s', Returned r) /\
    ((exists response, r = Ok response)
     <-> exists u, In u (items (users_json data)) /\ Matches request u) /\
    (forall response, r = Ok response ->
       exists u, In u (items (users_json data)) /\ Matches request u /\
         LoginResponse.User response = DtoOf u /\
         Jwt.NameIdentifier (Jwt.Payload (LoginResponse.Token response))
         = User.Id u /\
         SignatureValidates svc (LoginResponse.Token response)) /\
    ((forall u, In u (items (users_json data)) -> ~ Matches request u) ->
     r = Unauthorized "Invalid credentials" /\ StatusOf r = 401).
Proof.
  intros R. run_task. rewrite (ReadJsonFileAsync_readable _ _ R).
  destruct (FirstOrDefault _ (items (users_json data))) as [u|] eqn:F.
  - apply FirstOrDefault_Some in F. destruct F as [Hin Hm].
    apply credentials_eqb in Hm.
    do 2 eexists. split; [reflexivity|]. split; [|split].
    + split; intros _; [exists u; auto | eexists; reflexivity].
    + intros response E. injection E as <-. exists u.
      repeat split; try assumption; apply Hm.
    + intros N. exfalso. exact (N u Hin Hm).
  - pose proof (FirstOrDefault_None _ _ F) as N.
    do 2 eexists. split; [reflexivity|]. split; [|split].
    + split; [intros [response E]; discriminate|].
      intros (u & Hin & Hm). apply credentials_eqb in Hm.
      rewrite (N u Hin) in Hm. discriminate.
    + intros response E. discriminate.
    + intros _. split; reflexivity.
Qed.

(** ** The bearer-token gate *)

Lemma Protected_Authorize (a : Route) : Protected a -> Authorize a = true.
Proof.
  intros [->|[->|(x & y & z & ->)]]; reflexivity.
Qed.

Lemma ValidateToken_true (svc : TokenService) (now : Z) (token : Jwt.t) :
  ValidateToken svc (AddJwtBearer (Settings svc)) now token = true ->
  SignatureValidates svc token /\ ~ Expired now token.
Proof.
  unfold ValidateToken, SignatureValidates, Expired.
  cbn [AddJwtBearer TokenValidationParameters.IssuerSigningKey
       TokenValidationParameters.ValidateIssuer
       TokenValidationParameters.ValidateAudience
       TokenValidationParameters.ValidateLifetime implb].
  rewrite !andb_true_iff, String.eqb_eq, Z.leb_le.
  intros [[[H _] _] L]. split; [exact H|lia].
Qed.

(** C9. A request for the dashboard, the schools or the tests that carries
    no token that is both signed with the server's secret and unexpired is
    answered by the 401 challenge of the gate: no controller runs, the data
    service is not called and the process is unchanged. An expired token is
    turned away whatever its signature. *)
Theorem protected_routes_fail_closed
  (data : DataDirectory) (svc : TokenService) (request : HttpRequest)
  (s : Server) :
  Protected (Action request) ->
  ((~ exists token, Bearer request = Some token /\
                    SignatureValidates svc token /\
                    ~ Expired (UtcNow s) token) ->
   Handle data svc request s = ([], s, Returned Challenge)) /\
  (forall token, Bearer request = Some token -> Expired (UtcNow s) token ->
   Handle data svc request s = ([], s, Returned Challenge)).
Proof.
  intros P. apply Protected_Authorize in P.
  assert (G : Authenticated svc request s = false ->
              Handle data svc request s = ([], s, Returned Challenge)).
  { intros A. unfold Handle. rewrite P, A. reflexivity. }
  split.
  - intros N. apply G. unfold Authenticated.
    destruct (Bearer request) as [token|]; [|reflexivity].
    destruct (ValidateToken svc _ (UtcNow s) token) eqn:V; [|reflexivity].
    apply ValidateToken_true in V. exfalso. apply N. exists token. tauto.
  - intros token B X. apply G. unfold Authenticated. rewrite B.
    destruct (ValidateToken svc _ (UtcNow s) token) eqn:V; [|reflexivity].
    apply ValidateToken_true in V. tauto.
Qed.

(** ** Events *)

Lemma fmap_task_run {A B} (f : A -> B) (m : Task A) (s : Server) calls s' a :
  m s = (calls, s', Returned a) ->
  fmap_task f m s = (calls, s', Returned (f a)).
Proof.
  intros E. unfold fmap_task, bind, ret. rewrite E, app_nil_r. reflexivity.
Qed.

Lemma step_effect (data : DataDirectory) (svc : TokenService) (e : Event)
  (s : Server) :
  Effect data s e (step data svc e s).
Proof.
  destruct e as [d|[token a]]; [constructor|].
  unfold step, Handle. cbn [Action].
  destruct (Authorize a && negb _); [constructor|].
  destruct a as [body| | |schoolId schoolYear testId]; cbn [Dispatch].
  - destruct (Login_server data svc body s) as [r E].
    rewrite (fmap_task_run _ _ _ _ _ _ E). apply EffectDelay. lia.
  - destruct (GetSchools_cases data s) as [(l & C & E)|[(C & R & E)|(C & R & E)]];
      rewrite (fmap_task_run _ _ _ _ _ _ E); cbn [fst snd].
    + constructor.
    + apply EffectSchools. exact C.
    + apply EffectDelay. lia.
  - destruct (GetTests_cases data s) as [(l & C & E)|[(C & R & E)|(C & R & E)]];
      rewrite (fmap_task_run _ _ _ _ _ _ E); cbn [fst snd].
    + constructor.
    + apply EffectTests. exact C.
    + apply EffectDelay. lia.
  - destruct (GetDashboardData_cases data schoolId schoolYear testId s)
      as [[G E]|[G [(d & C & E)|[(C & E)|(C & calls & N & E)]]]];
      rewrite (fmap_task_run _ _ _ _ _ _ E); cbn [fst snd].
    + constructor.
    + constructor.
    + apply EffectDashboard; assumption.
    + apply EffectDelay. lia.
Qed.

Lemma Effect_clock data s e s' : Effect data s e s' -> UtcNow s <= UtcNow s'.
Proof. destruct 1; simpl; lia. Qed.

Lemma run_clock data svc evs s : UtcNow s <= UtcNow (run data svc evs s).
Proof.
  revert s. induction evs as [|e evs IH]; intros s; [simpl; lia|].
  cbn [run fold_left]. fold (run data svc evs (step data svc e s)).
  pose proof (Effect_clock _ _ _ _ (step_effect data svc e s)).
  specialize (IH (step data svc e s)). lia.
Qed.

(** ** Cache entries over time *)

Lemma cacheKey_not_tests a b c : cacheKey a b c <> "tests".
Proof. unfold cacheKey. simpl. discriminate. Qed.

Lemma cacheKey_not_schools a b c : cacheKey a b c <> "schools".
Proof. unfold cacheKey. simpl. discriminate. Qed.

Lemma CachedDashboard_Some (s : Server) (k : string) (d : DashboardData.t) :
  CachedDashboard s k = Some d <->
  exists e, Entries s !! k = Some e /\ Value e = ObjDashboard d /\
            UtcNow s < AbsoluteExpiration e.
Proof.
  unfold CachedDashboard, Live. split.
  - destruct (Entries s !! k) as [e|]; [|discriminate].
    destruct (Z.ltb_spec (UtcNow s) (AbsoluteExpiration e)); [|discriminate].
    destruct (Value e) eqn:V; simpl; try discriminate.
    intros [= ->]. exists e. auto.
  - intros (e & -> & V & L). apply Z.ltb_lt in L. rewrite L, V. reflexivity.
Qed.


(** A live dashboard entry outlasts any event that ends before its expiry. *)
Lemma Effect_keeps_entry data s ev s' a b c e d :
  Effect data s ev s' ->
  Entries s !! cacheKey a b c = Some e ->
  Value e = ObjDashboard d ->
  UtcNow s' < AbsoluteExpiration e ->
  Entries s' !! cacheKey a b c = Some e.
Proof.
  intros Eff E V L. pose proof (Effect_clock _ _ _ _ Eff) as Mono.
  destruct Eff as [n|r|r ms Hms|token a' b' c' G C|r C|r C];
    cbn [Stored Later Entries] in *; try assumption.
  - destruct (decide (cacheKey a' b' c' = cacheKey a b c)) as [Q|Q].
    + exfalso. rewrite Q in C.
      assert (H : CachedDashboard s (cacheKey a b c) = Some d).
      { apply CachedDashboard_Some. exists e. repeat split; try assumption.
        cbn [Stored Later UtcNow] in Mono, L. lia. }
      congruence.
    + rewrite lookup_insert_ne by exact Q. exact E.
  - rewrite lookup_insert_ne; [exact E|].
    intros Q. symmetry in Q. exact (cacheKey_not_tests _ _ _ Q).
  - rewrite lookup_insert_ne; [exact E|].
    intros Q. symmetry in Q. exact (cacheKey_not_schools _ _ _ Q).
Qed.

Lemma run_keeps_entry data svc evs s a b c e d :
  Entries s !! cacheKey a b c = Some e ->
  Value e = ObjDashboard d ->
  UtcNow (run data svc evs s) < AbsoluteExpiration e ->
  Entries (run data svc evs s) !! cacheKey a b c = Some e.
Proof.
  revert s. induction evs as [|ev evs IH]; intros s E V L; [exact E|].
  cbn [run fold_left] in *. fold (run data svc evs (step data svc ev s)) in *.
  apply IH; try assumption.
  apply (Effect_keeps_entry data s ev _ a b c e d (step_effect data svc ev s));
    try assumption.
  pose proof (run_clock data svc evs (step data svc ev s)). lia.
Qed.

(** C3. A dashboard query answered [Ok], then whatever the server handles
    and however much time passes, then the same query again while the cache
    entry of the first is unexpired: the second answer is the first one, the
    data service is not called, and the process is left as it was. The data
    directory may even have changed in between. *)
Theorem repeated_query_is_served_from_cache
  (data1 data2 data3 : DataDirectory) (svc : TokenService)
  (schoolId schoolYear testId : option string) (s0 s1 : Server)
  (calls1 : list IDataService.Call) (d : DashboardData.t) (e : CacheEntry)
  (evs : list Event) :
  ValidQuery schoolId schoolYear testId ->
  GetDashboardData data1 schoolId schoolYear testId s0
  = (calls1, s1, Returned (Ok d)) ->
  Entries s1 !! cacheKey schoolId schoolYear testId = Some e ->
  UtcNow (run data2 svc evs s1) < AbsoluteExpiration e ->
  GetDashboardData data3 schoolId schoolYear testId (run data2 svc evs s1)
  = ([], run data2 svc evs s1, Returned (Ok d)).
Proof.
  intros V First E L. apply ValidQuery_guard in V.
  assert (Ve : Value e = ObjDashboard d).
  { destruct (GetDashboardData_cases data1 schoolId schoolYear testId s0)
      as [[G X]|[G [(d' & C & X)|[(C & X)|(C & calls & N & X)]]]];
      rewrite X in First; try congruence.
    - injection First as _ <- <-. apply CachedDashboard_Some in C.
      destruct C as (e' & E' & V' & _). congruence.
    - injection First as _ <- <-. cbn [Stored Entries] in E.
      rewrite lookup_insert_eq in E. injection E as <-. reflexivity. }
  apply GetDashboardData_hit; [exact V|].
  apply CachedDashboard_Some. exists e. repeat split; try assumption.
  apply (run_keeps_entry data2 svc evs s1 _ _ _ e d); assumption.
Qed.

Lemma repeated_query_is_served_from_cache_witness :
  let query := GetDashboardData sample (Some "SCH1") (Some "2025-2026") (Some "2") in
  let s1 := snd (fst (query boot)) in
  let s2 := run midpoint service traffic s1 in
  GetDashboardData rosterless (Some "SCH1") (Some "2025-2026") (Some "2") s2
  = ([], s2, Returned (Ok (FreshDashboard sample (Some "2025-2026") (Some "2")))).
Proof.
  intros query s1 s2.
  apply (repeated_query_is_served_from_cache sample midpoint rosterless service
           (Some "SCH1") (Some "2025-2026") (Some "2") boot s1
           [IDataService.GetStudents; IDataService.GetScores;
            IDataService.GetHistoricalPerformance]
           (FreshDashboard sample (Some "2025-2026") (Some "2"))
           {| Value := ObjDashboard
                         (FreshDashboard sample (Some "2025-2026") (Some "2"));
              AbsoluteExpiration := 600600 |}
           traffic).
  - unfold ValidQuery, MissingOrEmpty. repeat split; intros [H|H]; discriminate.
  - vm_compute. reflexivity.
  - vm_compute. reflexivity.
  - vm_compute. reflexivity.
Defined.

(** ** Expiry *)





(** ** Files that cannot be read *)

(** C7, as the specification words it, fails. With the students file gone,
    the read of the roster does not fail but returns an empty list, and the
    dashboard is answered [Ok] with the two matching scores, no student and
    a total of 0 students. *)
Lemma absent_file_reads_as_empty :
  CannotBeRead (students_json rosterless) /\
  GetStudentsAsync rosterless boot
  = ([IDataService.GetStudents], boot, Returned []) /\
  exists calls s' d,
    GetDashboardData rosterless (Some "SCH1") (Some "2025-2026") (Some "2") boot
    = (calls, s', Returned (Ok d)) /\
    DashboardData.Students d = [] /\
    length (DashboardData.Scores d) = 2%nat /\
    AggregateScore.TotalStudents (DashboardData.AggregateScores d) = 0.
Proof.
  split; [exact I|]. split; [reflexivity|].
  do 3 eexists. split; [vm_compute; reflexivity|]. repeat split.
Qed.

(** C7, as the code has it. A file that exists but cannot be read or parsed
    makes the read throw, and a dashboard request that has to read it ends
    in a 500 with a message only and a cache left as it was; a dashboard that
    is computed at all is built from all three collections as read. A file
    that is absent reads as an empty collection without failing. *)
Theorem unreadable_file_fails_request_absent_file_reads_empty :
  (forall T (f : JsonFile T) (s : Server),
     (f = Unreadable \/ f = Malformed ->
      exists e, ReadJsonFileAsync f s = ([], s, Thrown e)) /\
     (f = Absent -> ReadJsonFileAsync f s = ([], s, Returned []))) /\
  (forall data schoolId schoolYear testId s,
     ValidQuery schoolId schoolYear testId ->
     CachedDashboard s (cacheKey schoolId schoolYear testId) = None ->
     exists calls s' r,
       GetDashboardData data schoolId schoolYear testId s
       = (calls, s', Returned r) /\
       (readable (students_json data) && readable (scores_json data)
        && readable (historicalPerformance_json data) = false ->
        r = StatusCode 500 "An error occurred while retrieving dashboard data"
        /\ Entries s' = Entries s) /\
       (readable (students_json data) && readable (scores_json data)
        && readable (historicalPerformance_json data) = true ->
        r = Ok (FreshDashboard data schoolYear testId) /\
        DashboardData.Students (FreshDashboard data schoolYear testId)
        = items (students_json data) /\
        DashboardData.Scores (FreshDashboard data schoolYear testId)
        = matching testId (items (scores_json data)) /\
        DashboardData.HistoricalPerformance
          (FreshDashboard data schoolYear testId)
        = items (historicalPerformance_json data))).
Proof.
  split.
  - intros T f s. split.
    + intros [->| ->]; eexists; reflexivity.
    + intros ->. reflexivity.
  - intros data schoolId schoolYear testId s V M.
    apply ValidQuery_guard in V.
    destruct (readable (students_json data) && readable (scores_json data)
              && readable (historicalPerformance_json data)) eqn:R.
    + pose proof R as R'.
      apply andb_prop in R. destruct R as [R R3].
      apply andb_prop in R. destruct R as [R1 R2].
      rewrite (GetDashboardData_miss data _ _ _ s V M R1 R2 R3).
      do 3 eexists. split; [reflexivity|]. split; [discriminate|].
      intros _. repeat split.
    + destruct (GetDashboardData_miss_throws data _ _ _ s V M R)
        as (calls & N & E).
      rewrite E. do 3 eexists. split; [reflexivity|].
      split; [|discriminate]. intros _. split; reflexivity.
Qed.

(** ** What the cache holds *)

Lemma empty_coherent ok data s : Entries s = ∅ -> Coherent ok data s.
Proof. intros E k e d H. rewrite E, lookup_empty in H. discriminate. Qed.

Lemma Effect_coherent ok data s ev s' :
  Effect data s ev s' -> EventOk ok ev ->
  Coherent ok data s -> Coherent ok data s'.
Proof.
  intros Eff O Co.
  destruct Eff as [n|r|r ms Hms|token a b c G C|r C|r C];
    try exact Co; intros k e d H V; cbn [Stored Later Entries] in H.
  - destruct (decide (cacheKey a b c = k)) as [<-|Q].
    + rewrite lookup_insert_eq in H. injection H as <-.
      cbn [Value] in V. injection V as <-.
      destruct O as [Oa Ob]. exists a, b, c. repeat split; assumption.
    + rewrite lookup_insert_ne in H by exact Q. exact (Co k e d H V).
  - destruct (decide ("tests" = k)) as [<-|Q].
    + rewrite lookup_insert_eq in H. injection H as <-. discriminate.
    + rewrite lookup_insert_ne in H by exact Q. exact (Co k e d H V).
  - destruct (decide ("schools" = k)) as [<-|Q].
    + rewrite lookup_insert_eq in H. injection H as <-. discriminate.
    + rewrite lookup_insert_ne in H by exact Q. exact (Co k e d H V).
Qed.

Lemma run_coherent ok data svc evs s :
  Forall (EventOk ok) evs ->
  Coherent ok data s -> Coherent ok data (run data svc evs s).
Proof.
  revert s. induction evs as [|ev evs IH]; intros s F Co; [exact Co|].
  apply Forall_cons_1 in F. destruct F as [O F].
  cbn [run fold_left]. apply IH; [exact F|].
  exact (Effect_coherent ok data s ev _ (step_effect data svc ev s) O Co).
Qed.

(** Whatever is answered [Ok] in a coherent process was computed from the
    data directory by a query with the same cache key. *)
Lemma coherent_answer ok data s schoolId schoolYear testId calls s' d :
  Coherent ok data s -> ok schoolId -> ok schoolYear ->
  GetDashboardData data schoolId schoolYear testId s
  = (calls, s', Returned (Ok d)) ->
  exists a b c,
    ok a /\ ok b /\
    IsNullOrEmpty a || IsNullOrEmpty b || IsNullOrEmpty c = false /\
    IsNullOrEmpty schoolId || IsNullOrEmpty schoolYear
    || IsNullOrEmpty testId = false /\
    cacheKey schoolId schoolYear testId = cacheKey a b c /\
    d = FreshDashboard data b c.
Proof.
  intros Co Oa Ob E.
  destruct (GetDashboardData_cases data schoolId schoolYear testId s)
    as [[G X]|[G [(d' & C & X)|[(C & X)|(C & calls' & N & X)]]]];
    rewrite X in E; try congruence.
  - injection E as _ _ <-. apply CachedDashboard_Some in C.
    destruct C as (e & H & V & _).
    destruct (Co _ _ _ H V) as (a & b & c & Ha & Hb & G' & K & D).
    exists a, b, c. repeat split; assumption.
  - injection E as _ _ <-. exists schoolId, schoolYear, testId.
    repeat split; assumption.
Qed.

(** X18. Under a data directory that stays as it is, every [Ok] answer to a
    dashboard query, computed or served from the cache, in any state the
    server reaches from an empty cache, reports as [TotalStudents] the length
    of the whole student roster. A computed answer for a test that no score
    matches has the class average 0, no score, the whole roster and its
    length. *)
Theorem total_students_is_roster_length
  (data : DataDirectory) (svc : TokenService) :
  (forall s0 evs schoolId schoolYear testId calls s' d,
     Entries s0 = ∅ ->
     GetDashboardData data schoolId schoolYear testId (run data svc evs s0)
     = (calls, s', Returned (Ok d)) ->
     AggregateScore.TotalStudents (DashboardData.AggregateScores d)
     = Z.of_nat (length (items (students_json data)))) /\
  (forall s schoolId schoolYear testId,
     ValidQuery schoolId schoolYear testId ->
     CachedDashboard s (cacheKey schoolId schoolYear testId) = None ->
     readable (students_json data) = true ->
     readable (scores_json data) = true ->
     readable (historicalPerformance_json data) = true ->
     (forall sc, In sc (items (scores_json data)) ->
                 testId <> Some (StudentScore.TestId sc)) ->
     exists calls s' d,
       GetDashboardData data schoolId schoolYear testId s
       = (calls, s', Returned (Ok d)) /\
       AggregateScore.ClassAverage (DashboardData.AggregateScores d) = 0%Q /\
       DashboardData.Scores d = [] /\
       DashboardData.Students d = items (students_json data) /\
       AggregateScore.TotalStudents (DashboardData.AggregateScores d)
       = Z.of_nat (length (items (students_json data)))).
Proof.
  split.
  - intros s0 evs schoolId schoolYear testId calls s' d E0 E.
    assert (Co : Coherent (fun _ => True) data (run data svc evs s0)).
    { apply run_coherent; [|apply empty_coherent; exact E0].
      apply Forall_forall. intros [n|[token [body| | |a b c]]] _; simpl; auto. }
    destruct (coherent_answer _ _ _ _ _ _ _ _ _ Co I I E)
      as (a & b & c & _ & _ & _ & _ & _ & ->).
    reflexivity.
  - intros s schoolId schoolYear testId V M R1 R2 R3 N.
    apply ValidQuery_guard in V.
    do 3 eexists. split; [apply GetDashboardData_miss; assumption|].
    unfold FreshDashboard. cbn [DashboardData.AggregateScores
      AggregateScore.ClassAverage AggregateScore.TotalStudents
      DashboardData.Scores DashboardData.Students].
    rewrite (matching_none _ _ N). repeat split.
Qed.

(** C6 does not hold of every query. The queries (SCH1_2025, 2026, 2) and
    (SCH1, 2025, 2026_2) are both valid and have the same cache key,
    dashboard_SCH1_2025_2026_2. No score of the sample carries the test id
    2026_2, yet after the first query has been answered the second is served
    the first one's dashboard from the cache: the class average is 85 over the
    two scores of test 2, not 0. The total of students is the length of the
    roster all the same. The query for the same test id under the school
    SCH2, whose key no other query has used, is answered 0 over no score. *)
Lemma unmatched_test_is_served_the_average_of_another_test :
  let s1 :=
    snd (fst (GetDashboardData sample (Some "SCH1_2025") (Some "2026")
                               (Some "2") boot)) in
  ValidQuery (Some "SCH1_2025") (Some "2026") (Some "2") /\
  ValidQuery (Some "SCH1") (Some "2025") (Some "2026_2") /\
  cacheKey (Some "SCH1_2025") (Some "2026") (Some "2")
  = "dashboard_SCH1_2025_2026_2" /\
  cacheKey (Some "SCH1") (Some "2025") (Some "2026_2")
  = "dashboard_SCH1_2025_2026_2" /\
  matching (Some "2026_2") (items (scores_json sample)) = [] /\
  exists d,
    GetDashboardData sample (Some "SCH1") (Some "2025") (Some "2026_2") s1
    = ([], s1, Returned (Ok d)) /\
    AggregateScore.ClassAverage (DashboardData.AggregateScores d) = 85%Q /\
    AggregateScore.TestId (DashboardData.AggregateScores d) = "2" /\
    DashboardData.Scores d = [score "1" "2" 80; score "2" "2" 90] /\
    AggregateScore.TotalStudents (DashboardData.AggregateScores d)
    = Z.of_nat (length (items (students_json sample))) /\
    exists calls s2 d2,
      GetDashboardData sample (Some "SCH2") (Some "2025") (Some "2026_2") s1
      = (calls, s2, Returned (Ok d2)) /\
      AggregateScore.ClassAverage (DashboardData.AggregateScores d2) = 0%Q /\
      DashboardData.Scores d2 = [].
Proof.
  intros s1.
  split; [unfold ValidQuery, MissingOrEmpty;
          repeat split; intros [H|H]; discriminate|].
  split; [unfold ValidQuery, MissingOrEmpty;
          repeat split; intros [H|H]; discriminate|].
  split; [reflexivity|]. split; [reflexivity|]. split; [reflexivity|].
  eexists. split; [vm_compute; reflexivity|].
  split; [reflexivity|]. split; [reflexivity|]. split; [reflexivity|].
  split; [reflexivity|].
  do 3 eexists. split; [vm_compute; reflexivity|]. split; reflexivity.
Qed.

(** ** Cache keys *)

Lemma append_underscore_inj (x x' r r' : string) :
  ~ In "_"%char (list_ascii_of_string x) ->
  ~ In "_"%char (list_ascii_of_string x') ->
  x +:+ "_" +:+ r = x' +:+ "_" +:+ r' ->
  x = x' /\ r = r'.
Proof.
  revert x'. induction x as [|ch x IH]; intros [|ch' x'] N N' E;
    cbn [list_ascii_of_string In] in *;
    cbv beta iota delta [String.append] in E; fold String.append in E.
  - injection E as E. subst r'. auto.
  - injection E as E _. exfalso. apply N'. left. symmetry. exact E.
  - injection E as E _. exfalso. apply N. left. exact E.
  - injection E as E1 E2. subst ch'. destruct (IH x') as [E3 E4]; auto.
    subst. auto.
Qed.

Lemma valid_parameter (p : option string) :
  IsNullOrEmpty p = false -> p = Some (fmt p).
Proof. destruct p; [reflexivity|discriminate]. Qed.

(** For school ids and school years without underscores, the cache key
    determines the school year and the test id. *)
Lemma cacheKey_inj a b c a' b' c' :
  NoUnderscore a -> NoUnderscore b -> NoUnderscore a' -> NoUnderscore b' ->
  IsNullOrEmpty a || IsNullOrEmpty b || IsNullOrEmpty c = false ->
  IsNullOrEmpty a' || IsNullOrEmpty b' || IsNullOrEmpty c' = false ->
  cacheKey a b c = cacheKey a' b' c' ->
  a = a' /\ b = b' /\ c = c'.
Proof.
  intros Na Nb Na' Nb' G G' K.
  apply orb_false_elim in G. destruct G as [G Gc].
  apply orb_false_elim in G. destruct G as [Ga Gb].
  apply orb_false_elim in G'. destruct G' as [G' Gc'].
  apply orb_false_elim in G'. destruct G' as [Ga' Gb'].
  unfold cacheKey in K.
  cbv beta iota delta [String.append] in K; fold String.append in K.
  injection K as K.
  apply append_underscore_inj in K; [|assumption..]. destruct K as [Ka K].
  apply append_underscore_inj in K; [|assumption..]. destruct K as [Kb Kc].
  rewrite (valid_parameter a Ga), (valid_parameter a' Ga'),
    (valid_parameter b Gb), (valid_parameter b' Gb'),
    (valid_parameter c Gc), (valid_parameter c' Gc').
  rewrite Ka, Kb, Kc. auto.
Qed.

Lemma FreshDashboard_SameData data b1 b2 c :
  SameData (FreshDashboard data b1 c) (FreshDashboard data b2 c).
Proof. unfold SameData, FreshDashboard. simpl. repeat split. Qed.

(** X19. Two dashboard queries for the same test that are both computed
    from the data directory return the same students, scores, historical
    performance and class average, the school average 81.5 and the district
    average 79.3, whatever their school ids and school years, which only show
    in the cache key and in the echoed school year. The same holds for
    answers served from the cache in any state the server reaches from an
    empty cache, as long as the school ids and school years that were queried
    contain no underscore. *)
Theorem same_test_same_data (data : DataDirectory) (svc : TokenService) :
  (forall s1 s2 schoolId1 schoolYear1 schoolId2 schoolYear2 testId
          calls1 s1' d1 calls2 s2' d2,
     CachedDashboard s1 (cacheKey schoolId1 schoolYear1 testId) = None ->
     CachedDashboard s2 (cacheKey schoolId2 schoolYear2 testId) = None ->
     GetDashboardData data schoolId1 schoolYear1 testId s1
     = (calls1, s1', Returned (Ok d1)) ->
     GetDashboardData data schoolId2 schoolYear2 testId s2
     = (calls2, s2', Returned (Ok d2)) ->
     SameData d1 d2 /\
     AggregateScore.SchoolYear (DashboardData.AggregateScores d1)
     = fmt schoolYear1 /\
     AggregateScore.SchoolYear (DashboardData.AggregateScores d2)
     = fmt schoolYear2 /\
     Entries s1' !! cacheKey schoolId1 schoolYear1 testId
     = Some {| Value := ObjDashboard d1;
               AbsoluteExpiration := UtcNow s1' + 600000 |} /\
     Entries s2' !! cacheKey schoolId2 schoolYear2 testId
     = Some {| Value := ObjDashboard d2;
               AbsoluteExpiration := UtcNow s2' + 600000 |}) /\
  (forall s01 evs1 s02 evs2 schoolId1 schoolYear1 schoolId2 schoolYear2 testId
          calls1 s1' d1 calls2 s2' d2,
     Entries s01 = ∅ -> Entries s02 = ∅ ->
     Forall (EventOk NoUnderscore) evs1 ->
     Forall (EventOk NoUnderscore) evs2 ->
     NoUnderscore schoolId1 -> NoUnderscore schoolYear1 ->
     NoUnderscore schoolId2 -> NoUnderscore schoolYear2 ->
     GetDashboardData data schoolId1 schoolYear1 testId
                      (run data svc evs1 s01)
     = (calls1, s1', Returned (Ok d1)) ->
     GetDashboardData data schoolId2 schoolYear2 testId
                      (run data svc evs2 s02)
     = (calls2, s2', Returned (Ok d2)) ->
     SameData d1 d2 /\
     AggregateScore.SchoolYear (DashboardData.AggregateScores d1)
     = fmt schoolYear1 /\
     AggregateScore.SchoolYear (DashboardData.AggregateScores d2)
     = fmt schoolYear2).
Proof.
  split.
  - intros s1 s2 a1 b1 a2 b2 c calls1 s1' d1 calls2 s2' d2 M1 M2 E1 E2.
    destruct (GetDashboardData_cases data a1 b1 c s1)
      as [[G X]|[G [(d' & C & X)|[(C & X)|(C & calls' & N & X)]]]];
      rewrite X in E1; try congruence.
    destruct (GetDashboardData_cases data a2 b2 c s2)
      as [[G' X']|[G' [(d' & C' & X')|[(C' & X')|(C' & calls' & N' & X')]]]];
      rewrite X' in E2; try congruence.
    injection E1 as _ <- <-. injection E2 as _ <- <-.
    split; [apply FreshDashboard_SameData|]. repeat split.
    + cbn [Stored Entries UtcNow]. apply lookup_insert_eq.
    + cbn [Stored Entries UtcNow]. apply lookup_insert_eq.
  - intros s01 evs1 s02 evs2 a1 b1 a2 b2 c calls1 s1' d1 calls2 s2' d2
      E01 E02 F1 F2 Na1 Nb1 Na2 Nb2 E1 E2.
    assert (Co1 : Coherent NoUnderscore data (run data svc evs1 s01))
      by (apply run_coherent; [exact F1|apply empty_coherent; exact E01]).
    assert (Co2 : Coherent NoUnderscore data (run data svc evs2 s02))
      by (apply run_coherent; [exact F2|apply empty_coherent; exact E02]).
    destruct (coherent_answer _ _ _ _ _ _ _ _ _ Co1 Na1 Nb1 E1)
      as (x1 & y1 & z1 & Nx1 & Ny1 & G1 & V1 & K1 & ->).
    destruct (coherent_answer _ _ _ _ _ _ _ _ _ Co2 Na2 Nb2 E2)
      as (x2 & y2 & z2 & Nx2 & Ny2 & G2 & V2 & K2 & ->).
    apply cacheKey_inj in K1; try assumption. destruct K1 as (_ & <- & <-).
    apply cacheKey_inj in K2; try assumption. destruct K2 as (_ & <- & <-).
    split; [apply FreshDashboard_SameData|]. split; reflexivity.
Qed.

Lemma NoUnderscore_check (p : option string) :
  forallb (fun ch => negb (Ascii.eqb ch "_")) (list_ascii_of_string (fmt p))
  = true ->
  NoUnderscore p.
Proof.
  unfold NoUnderscore. intros F H.
  rewrite forallb_forall in F. specialize (F _ H).
  rewrite Ascii.eqb_refl in F. discriminate.
Qed.

(** C10 does not hold of the code. The cache key joins the three
    parameters with underscores, so the valid queries (SCH1_2025, 2026, T9)
    and (SCH1, 2025, 2026_T9) have one key, dashboard_SCH1_2025_2026_T9.
    After the first has been answered, the second is served the first one's
    dashboard, with the scores of test T9 and the class average 80, while the
    query (SCH2, 2025, 2026_T9), for the same test and differing in the
    school id only, is computed, with the score of test 2026_T9 and the class
    average 60. *)
Lemma same_test_different_data :
  let s1 :=
    snd (fst (GetDashboardData overlapping (Some "SCH1_2025") (Some "2026")
                               (Some "T9") boot)) in
  cacheKey (Some "SCH1_2025") (Some "2026") (Some "T9")
  = cacheKey (Some "SCH1") (Some "2025") (Some "2026_T9") /\
  ValidQuery (Some "SCH1") (Some "2025") (Some "2026_T9") /\
  ValidQuery (Some "SCH2") (Some "2025") (Some "2026_T9") /\
  exists calls1 s1' d1 calls2 s2' d2,
    GetDashboardData overlapping (Some "SCH1") (Some "2025") (Some "2026_T9") s1
    = (calls1, s1', Returned (Ok d1)) /\
    GetDashboardData overlapping (Some "SCH2") (Some "2025") (Some "2026_T9") s1
    = (calls2, s2', Returned (Ok d2)) /\
    DashboardData.Scores d1 = [score "1" "T9" 80] /\
    DashboardData.Scores d2 = [score "2" "2026_T9" 60] /\
    AggregateScore.ClassAverage (DashboardData.AggregateScores d1) = 80%Q /\
    AggregateScore.ClassAverage (DashboardData.AggregateScores d2) = 60%Q /\
    ~ SameData d1 d2.
Proof.
  intros s1. split; [reflexivity|].
  split; [unfold ValidQuery, MissingOrEmpty;
          repeat split; intros [H|H]; discriminate|].
  split; [unfold ValidQuery, MissingOrEmpty;
          repeat split; intros [H|H]; discriminate|].
  do 6 eexists.
  split; [vm_compute; reflexivity|]. split; [vm_compute; reflexivity|].
  repeat split. intros (_ & H & _). discriminate.
Qed.

Lemma same_test_same_data_witness :
  let d1 := FreshDashboard sample (Some "2025-2026") (Some "2") in
  let d2 := FreshDashboard sample (Some "2024-2025") (Some "2") in
  GetDashboardData sample (Some "SCH1") (Some "2025-2026") (Some "2")
                   (run sample service visits boot)
  = ([], run sample service visits boot, Returned (Ok d1)) /\
  SameData d1 d2 /\
  AggregateScore.SchoolYear (DashboardData.AggregateScores d1) = "2025-2026" /\
  AggregateScore.SchoolYear (DashboardData.AggregateScores d2) = "2024-2025".
Proof.
  intros d1 d2.
  assert (E1 : GetDashboardData sample (Some "SCH1") (Some "2025-2026")
                 (Some "2") (run sample service visits boot)
               = ([], run sample service visits boot, Returned (Ok d1)))
    by (vm_compute; reflexivity).
  split; [exact E1|].
  apply (proj2 (same_test_same_data sample service)
           boot visits boot []
           (Some "SCH1") (Some "2025-2026") (Some "SCH2") (Some "2024-2025")
           (Some "2")
           [] (run sample service visits boot) d1
           [IDataService.GetStudents; IDataService.GetScores;
            IDataService.GetHistoricalPerformance]
           (Stored (Later boot 600)
                   (cacheKey (Some "SCH2") (Some "2024-2025") (Some "2"))
                   (ObjDashboard d2) (FromMinutes 10))
           d2).
  - reflexivity.
  - reflexivity.
  - unfold visits.
    apply List.Forall_cons;
      [split; apply NoUnderscore_check; reflexivity|].
    apply List.Forall_cons; [exact I|].
    apply List.Forall_cons; [exact I|].
    apply List.Forall_nil.
  - apply List.Forall_nil.
  - apply NoUnderscore_check. reflexivity.
  - apply NoUnderscore_check. reflexivity.
  - apply NoUnderscore_check. reflexivity.
  - apply NoUnderscore_check. reflexivity.
  - exact E1.
  - vm_compute. reflexivity.
Defined.

(** ** Instances *)

Lemma valid_sample_query (testId : string) :
  testId <> "" -> ValidQuery (Some "SCH1") (Some "2025-2026") (Some testId).
Proof.
  intros N. unfold ValidQuery, MissingOrEmpty.
  repeat split; intros [H|H]; congruence.
Qed.

Lemma bad_request_iff_parameter_missing_or_empty_witness :
  exists calls s' r,
    GetDashboardData sample (Some "SCH1") (Some "") None boot
    = (calls, s', Returned r) /\
    (StatusOf r = 400
     <-> MissingOrEmpty (Some "SCH1") \/ MissingOrEmpty (Some "")
         \/ MissingOrEmpty None) /\
    (StatusOf r = 400 -> calls = [] /\ s' = boot).
Proof.
  exact (bad_request_iff_parameter_missing_or_empty
           sample (Some "SCH1") (Some "") None boot).
Defined.

Lemma total_students_is_roster_length_witness :
  (exists calls s' d,
     GetDashboardData sample (Some "SCH1") (Some "2025-2026") (Some "2")
                      (run sample service visits boot)
     = (calls, s', Returned (Ok d)) /\
     AggregateScore.TotalStudents (DashboardData.AggregateScores d) = 3) /\
  (exists calls s' d,
     GetDashboardData sample (Some "SCH1") (Some "2025-2026") (Some "T9") boot
     = (calls, s', Returned (Ok d)) /\
     AggregateScore.ClassAverage (DashboardData.AggregateScores d) = 0%Q /\
     DashboardData.Scores d = [] /\
     DashboardData.Students d = roster /\
     AggregateScore.TotalStudents (DashboardData.AggregateScores d) = 3).
Proof.
  destruct (total_students_is_roster_length sample service) as [Every NoMatch].
  split.
  - assert (E : GetDashboardData sample (Some "SCH1") (Some "2025-2026")
                  (Some "2") (run sample service visits boot)
                = ([], run sample service visits boot,
                   Returned (Ok (FreshDashboard sample (Some "2025-2026")
                                                (Some "2")))))
      by (vm_compute; reflexivity).
    do 3 eexists. split; [exact E|].
    exact (Every boot visits _ _ _ _ _ _ eq_refl E).
  - apply (NoMatch boot (Some "SCH1") (Some "2025-2026") (Some "T9")).
    + apply valid_sample_query. discriminate.
    + reflexivity.
    + reflexivity.
    + reflexivity.
    + reflexivity.
    + simpl. intros sc [H|[H|[H|[]]]]; subst sc; discriminate.
Defined.

Lemma unreadable_file_fails_request_absent_file_reads_empty_witness :
  (exists e, ReadJsonFileAsync (scores_json garbled) boot = ([], boot, Thrown e)) /\
  ReadJsonFileAsync (students_json rosterless) boot = ([], boot, Returned []) /\
  exists calls s',
    GetDashboardData garbled (Some "SCH1") (Some "2025-2026") (Some "2") boot
    = (calls, s',
       Returned (StatusCode 500
                   "An error occurred while retrieving dashboard data")) /\
    Entries s' = Entries boot.
Proof.
  destruct unreadable_file_fails_request_absent_file_reads_empty
    as [Reads Requests].
  split; [|split].
  - apply (proj1 (Reads _ (scores_json garbled) boot)). right. reflexivity.
  - apply (proj2 (Reads _ (students_json rosterless) boot)). reflexivity.
  - destruct (Requests garbled (Some "SCH1") (Some "2025-2026") (Some "2") boot
                (valid_sample_query "2" ltac:(discriminate)) eq_refl)
      as (calls & s' & r & E & Fails & _).
    destruct (Fails eq_refl) as [-> Es].
    exists calls, s'. split; [exact E|exact Es].
Defined.

Lemma login_ok_iff_some_credential_matches_witness :
  exists s' r,
    Login sample service (LoginRequest.mk "teacher" "password") boot
    = ([IDataService.GetUsers], s', Returned r) /\
    ((exists response, r = Ok response)
     <-> exists u, In u (items (users_json sample)) /\
                   Matches (LoginRequest.mk "teacher" "password") u) /\
    (forall response, r = Ok response ->
       exists u, In u (items (users_json sample)) /\
         Matches (LoginRequest.mk "teacher" "password") u /\
         LoginResponse.User response = DtoOf u /\
         Jwt.NameIdentifier (Jwt.Payload (LoginResponse.Token response))
         = User.Id u /\
         SignatureValidates service (LoginResponse.Token response)) /\
    ((forall u, In u (items (users_json sample)) ->
                ~ Matches (LoginRequest.mk "teacher" "password") u) ->
     r = Unauthorized "Invalid credentials" /\ StatusOf r = 401).
Proof.
  apply (login_ok_iff_some_credential_matches sample service
           (LoginRequest.mk "teacher" "password") boot).
  reflexivity.
Defined.

(** The teacher's login at start-up is answered with the badge; a wrong
    password is answered with the 401. *)
Example teacher_login :
  Login sample service (LoginRequest.mk "teacher" "password") boot
  = ([IDataService.GetUsers], Later boot 800,
     Returned (Ok {| LoginResponse.User :=
                       UserDto.mk "1" "teacher" "John Smith"
                                  "teacher@school.edu" "teacher";
                     LoginResponse.Token := badge |})) /\
  Login sample service (LoginRequest.mk "teacher" "letmein") boot
  = ([IDataService.GetUsers], Later boot 800,
     Returned (Unauthorized "Invalid credentials")).
Proof. split; reflexivity. Qed.

(** The badge opens the dashboard until it expires; afterwards, and for a
    forged or a missing token at any time, the gate answers. *)
Example badge_at_the_gate :
  let dashboard :=
    GET_dashboard (Some "SCH1") (Some "2025-2026") (Some "2") in
  snd (Handle sample service {| Bearer := Some badge; Action := dashboard |} boot)
  = Returned (FromDashboard
                (Ok (FreshDashboard sample (Some "2025-2026") (Some "2")))) /\
  Handle sample service {| Bearer := Some badge; Action := dashboard |} afternoon
  = ([], afternoon, Returned Challenge) /\
  Handle sample service {| Bearer := Some forged; Action := dashboard |} boot
  = ([], boot, Returned Challenge) /\
  Handle sample service {| Bearer := None; Action := dashboard |} boot
  = ([], boot, Returned Challenge).
Proof. repeat split; vm_compute; reflexivity. Qed.

Lemma protected_routes_fail_closed_witness :
  Handle sample service {| Bearer := Some forged; Action := GET_schools |} boot
  = ([], boot, Returned Challenge) /\
  Handle sample service {| Bearer := Some badge; Action := GET_tests |} afternoon
  = ([], afternoon, Returned Challenge).
Proof.
  split.
  - apply (proj1 (protected_routes_fail_closed sample service
                    {| Bearer := Some forged; Action := GET_schools |} boot
                    (or_introl eq_refl))).
    intros (token & B & S & _). injection B as <-.
    vm_compute in S. congruence.
  - apply (proj2 (protected_routes_fail_closed sample service
                    {| Bearer := Some badge; Action := GET_tests |} afternoon
                    (or_intror (or_introl eq_refl)))
             badge eq_refl).
    reflexivity.
Defined.

(** * Further properties of the server *)

(** ** The scores of a computed dashboard *)

Lemma computed_answer data a b c s calls s' d :
  CachedDashboard s (cacheKey a b c) = None ->
  GetDashboardData data a b c s = (calls, s', Returned (Ok d)) ->
  d = FreshDashboard data b c /\
  calls = [IDataService.GetStudents; IDataService.GetScores;
           IDataService.GetHistoricalPerformance] /\
  s' = Stored (Later s 600) (cacheKey a b c) (ObjDashboard d) (FromMinutes 10).
Proof.
  intros M E.
  destruct (GetDashboardData_cases data a b c s)
    as [[G X]|[G [(d' & C & X)|[(C & X)|(C & calls' & N & X)]]]];
    rewrite X in E; try congruence.
  injection E as <- <- <-. auto.
Qed.

Lemma filter_sublist {A} (p : A -> bool) (l : list A) :
  List.filter p l `sublist_of` l.
Proof.
  induction l as [|x l IH]; cbn [List.filter]; [constructor|].
  destruct (p x); [apply sublist_skip|apply sublist_cons]; exact IH.
Qed.

(** Among the subsequences of a list whose members all pass a test, the
    filtered list is the greatest. *)
Lemma filter_greatest {A} (p : A -> bool) (l k : list A) :
  k `sublist_of` l -> (forall x, In x k -> p x = true) ->
  k `sublist_of` List.filter p l.
Proof.
  intros S. induction S as [|x k l S IH|x k l S IH]; intros P;
    cbn [List.filter].
  - constructor.
  - rewrite (P x (or_introl eq_refl)). apply sublist_skip, IH.
    intros y Hy. apply P. right. exact Hy.
  - destruct (p x); [apply sublist_cons|]; apply IH; exact P.
Qed.

(** X1. The scores of a computed dashboard are the records of the scores
    file that carry the queried test id, all of them and no others, each as
    often as the file has it and in the order of the file: they are the
    filtered file, a subsequence of the file whose records carry the test id,
    and the greatest such subsequence. *)
Theorem computed_scores_are_the_scores_of_the_test
  (data : DataDirectory) (schoolId schoolYear testId : option string)
  (s s' : Server) (calls : list IDataService.Call) (d : DashboardData.t) :
  CachedDashboard s (cacheKey schoolId schoolYear testId) = None ->
  GetDashboardData data schoolId schoolYear testId s
  = (calls, s', Returned (Ok d)) ->
  DashboardData.Scores d
  = List.filter (fun sc => op_Equality (StudentScore.TestId sc) testId)
                (items (scores_json data)) /\
  DashboardData.Scores d `sublist_of` items (scores_json data) /\
  (forall sc,
     In sc (DashboardData.Scores d)
     <-> In sc (items (scores_json data)) /\
         testId = Some (StudentScore.TestId sc)) /\
  (forall l,
     l `sublist_of` items (scores_json data) ->
     (forall sc, In sc l -> testId = Some (StudentScore.TestId sc)) ->
     l `sublist_of` DashboardData.Scores d).
Proof.
  intros M E. destruct (computed_answer _ _ _ _ _ _ _ _ M E) as (-> & _ & _).
  cbn [FreshDashboard DashboardData.Scores]. unfold matching.
  split; [reflexivity|]. split; [apply filter_sublist|]. split.
  - intros sc. rewrite filter_In, op_Equality_true. reflexivity.
  - intros l S P. apply filter_greatest; [exact S|].
    intros sc Hsc. apply op_Equality_true, P, Hsc.
Qed.

Lemma computed_scores_are_the_scores_of_the_test_witness :
  let d := FreshDashboard resubmitted (Some "2025-2026") (Some "2") in
  DashboardData.Scores d
  = [score "1" "2" 80; score "1" "2" 80; score "2" "2" 90] /\
  DashboardData.Scores d `sublist_of` items (scores_json resubmitted) /\
  (forall sc,
     In sc (DashboardData.Scores d)
     <-> In sc (items (scores_json resubmitted)) /\
         Some "2" = Some (StudentScore.TestId sc)) /\
  (forall l,
     l `sublist_of` items (scores_json resubmitted) ->
     (forall sc, In sc l -> Some "2" = Some (StudentScore.TestId sc)) ->
     l `sublist_of` DashboardData.Scores d).
Proof.
  intros d.
  apply (computed_scores_are_the_scores_of_the_test resubmitted (Some "SCH1")
           (Some "2025-2026") (Some "2") boot
           (Stored (Later boot 600)
                   (cacheKey (Some "SCH1") (Some "2025-2026") (Some "2"))
                   (ObjDashboard d) (FromMinutes 10))
           [IDataService.GetStudents; IDataService.GetScores;
            IDataService.GetHistoricalPerformance] d).
  - reflexivity.
  - vm_compute. reflexivity.
Defined.

(** ** Bounds of the class average *)

Lemma mean_bounds (l : list StudentScore.t) (lo hi : Z) :
  l <> [] ->
  (forall sc, In sc l -> lo <= StudentScore.Score sc <= hi) ->
  (inject_Z lo <= mean l <= inject_Z hi)%Q.
Proof.
  intros N H. pose proof (total_bounds l lo hi H) as [Lo Hi].
  assert (P : (0 < inject_Z (Z.of_nat (length l)))%Q).
  { rewrite <- (Zlt_Qlt 0). destruct l; [congruence|simpl; lia]. }
  unfold mean. split.
  - apply Qle_shift_div_l; [exact P|].
    rewrite <- inject_Z_mult, <- Zle_Qle. exact Lo.
  - apply Qle_shift_div_r; [exact P|].
    rewrite <- inject_Z_mult, <- Zle_Qle. exact Hi.
Qed.

Lemma Math_Round_between_integers (value : Q) (lo hi : Z) :
  (inject_Z lo <= value <= inject_Z hi)%Q ->
  (inject_Z lo <= Math_Round value 1 <= inject_Z hi)%Q.
Proof.
  intros [Lo Hi].
  destruct (Math_Round_one_decimal value) as (tenths & E & B & _).
  apply Qabs_Qle_condition in B. destruct B as [B1 B2].
  assert (T10 : (/ 10 == 1 # 10)%Q) by reflexivity.
  unfold Qdiv in E. rewrite T10 in E. rewrite E in *.
  assert (K1 : 10 * lo <= tenths).
  { destruct (Z_lt_le_dec tenths (10 * lo)) as [L|L]; [|exact L]. exfalso.
    assert (L' : tenths + 1 <= 10 * lo) by lia.
    rewrite Zle_Qle, inject_Z_plus, inject_Z_mult in L'.
    change (inject_Z 1) with 1%Q in L'. change (inject_Z 10) with 10%Q in L'.
    lra. }
  assert (K2 : tenths <= 10 * hi).
  { destruct (Z_lt_le_dec (10 * hi) tenths) as [L|L]; [|exact L]. exfalso.
    assert (L' : 10 * hi + 1 <= tenths) by lia.
    rewrite Zle_Qle, inject_Z_plus, inject_Z_mult in L'.
    change (inject_Z 1) with 1%Q in L'. change (inject_Z 10) with 10%Q in L'.
    lra. }
  rewrite Zle_Qle, inject_Z_mult in K1, K2.
  change (inject_Z 10) with 10%Q in K1, K2. split; lra.
Qed.

(** X2. The class average of a computed dashboard with at least one score
    lies between the lowest and the highest of its scores: rounding to one
    decimal never carries it past a whole-number bound that holds for every
    score. *)
Theorem class_average_within_score_bounds
  (data : DataDirectory) (schoolId schoolYear testId : option string)
  (s s' : Server) (calls : list IDataService.Call) (d : DashboardData.t)
  (lo hi : Z) :
  CachedDashboard s (cacheKey schoolId schoolYear testId) = None ->
  GetDashboardData data schoolId schoolYear testId s
  = (calls, s', Returned (Ok d)) ->
  DashboardData.Scores d <> [] ->
  (forall sc, In sc (DashboardData.Scores d) ->
              lo <= StudentScore.Score sc <= hi) ->
  (inject_Z lo
   <= AggregateScore.ClassAverage (DashboardData.AggregateScores d)
   <= inject_Z hi)%Q.
Proof.
  intros M E. destruct (computed_answer _ _ _ _ _ _ _ _ M E) as (-> & _ & _).
  cbn [FreshDashboard DashboardData.Scores DashboardData.AggregateScores
       AggregateScore.ClassAverage].
  intros N H. destruct (matching testId (items (scores_json data)))
    as [|x l] eqn:L; [congruence|].
  cbn [Any]. apply Math_Round_between_integers.
  rewrite Qred_correct. apply mean_bounds; assumption.
Qed.

Lemma class_average_within_score_bounds_witness :
  let d := FreshDashboard midpoint (Some "2025-2026") (Some "2") in
  (inject_Z 80
   <= AggregateScore.ClassAverage (DashboardData.AggregateScores d)
   <= inject_Z 81)%Q.
Proof.
  intros d.
  apply (class_average_within_score_bounds midpoint (Some "SCH1")
           (Some "2025-2026") (Some "2") boot
           (Stored (Later boot 600)
                   (cacheKey (Some "SCH1") (Some "2025-2026") (Some "2"))
                   (ObjDashboard d) (FromMinutes 10))
           [IDataService.GetStudents; IDataService.GetScores;
            IDataService.GetHistoricalPerformance] d 80 81).
  - reflexivity.
  - vm_compute. reflexivity.
  - discriminate.
  - simpl. intros sc [H|[H|[H|[H|[]]]]]; subst sc; simpl; lia.
Defined.

(** ** Reads that fail *)

Lemma unreadable_throws {T} (f : JsonFile T) (s : Server) :
  readable f = false ->
  ReadJsonFileAsync f s = ([], s, Thrown IOException)
  \/ ReadJsonFileAsync f s = ([], s, Thrown JsonException).
Proof. destruct f; simpl; intros H; try discriminate; auto. Qed.

(** X3. A computing dashboard request reads the students, then the scores,
    then the historical performance, and stops at the first file that cannot
    be read or parsed: the files after it are not asked for, the answer is
    the 500, and nothing is stored. *)
Theorem first_failing_read_ends_the_request
  (data : DataDirectory) (schoolId schoolYear testId : option string)
  (s : Server) :
  ValidQuery schoolId schoolYear testId ->
  CachedDashboard s (cacheKey schoolId schoolYear testId) = None ->
  let failure calls :=
    (calls, Later s 600,
     Returned (StatusCode 500
                 "An error occurred while retrieving dashboard data")) in
  (readable (students_json data) = false ->
   GetDashboardData data schoolId schoolYear testId s
   = failure [IDataService.GetStudents]) /\
  (readable (students_json data) = true ->
   readable (scores_json data) = false ->
   GetDashboardData data schoolId schoolYear testId s
   = failure [IDataService.GetStudents; IDataService.GetScores]) /\
  (readable (students_json data) = true ->
   readable (scores_json data) = true ->
   readable (historicalPerformance_json data) = false ->
   GetDashboardData data schoolId schoolYear testId s
   = failure [IDataService.GetStudents; IDataService.GetScores;
              IDataService.GetHistoricalPerformance]).
Proof.
  intros V M failure. apply ValidQuery_guard in V.
  unfold CachedDashboard in M. subst failure. cbv beta.
  split; [|split].
  - intros R1. run_task. rewrite V, M.
    destruct (unreadable_throws _ (Later s 600) R1) as [E|E];
      unfold Later in E; rewrite E; reflexivity.
  - intros R1 R2. run_task. rewrite V, M.
    rewrite (ReadJsonFileAsync_readable _ _ R1).
    destruct (unreadable_throws _ (Later s 600) R2) as [E|E];
      unfold Later in E; rewrite E; reflexivity.
  - intros R1 R2 R3. run_task. rewrite V, M.
    rewrite (ReadJsonFileAsync_readable _ _ R1).
    rewrite (ReadJsonFileAsync_readable _ _ R2).
    destruct (unreadable_throws _ (Later s 600) R3) as [E|E];
      unfold Later in E; rewrite E; reflexivity.
Qed.

Lemma first_failing_read_ends_the_request_witness :
  GetDashboardData garbled (Some "SCH1") (Some "2025-2026") (Some "2") boot
  = ([IDataService.GetStudents; IDataService.GetScores], Later boot 600,
     Returned (StatusCode 500
                 "An error occurred while retrieving dashboard data")).
Proof.
  apply (proj1 (proj2 (first_failing_read_ends_the_request garbled
                         (Some "SCH1") (Some "2025-2026") (Some "2") boot
                         (valid_sample_query "2" ltac:(discriminate))
                         eq_refl))).
  - reflexivity.
  - reflexivity.
Defined.

(** ** The lists of tests and of schools *)

Lemma CachedTests_Some (s : Server) (l : list Test.t) :
  CachedTests s = Some l <->
  exists e, Entries s !! "tests" = Some e /\ Value e = ObjTests l /\
            UtcNow s < AbsoluteExpiration e.
Proof.
  unfold CachedTests, Live. split.
  - destruct (Entries s !! "tests") as [e|]; [|discriminate].
    destruct (Z.ltb_spec (UtcNow s) (AbsoluteExpiration e)); [|discriminate].
    destruct (Value e) eqn:V; simpl; try discriminate.
    intros [= ->]. exists e. auto.
  - intros (e & -> & V & L). apply Z.ltb_lt in L. rewrite L, V. reflexivity.
Qed.

Lemma CachedSchools_Some (s : Server) (l : list School.t) :
  CachedSchools s = Some l <->
  exists e, Entries s !! "schools" = Some e /\ Value e = ObjSchools l /\
            UtcNow s < AbsoluteExpiration e.
Proof.
  unfold CachedSchools, Live. split.
  - destruct (Entries s !! "schools") as [e|]; [|discriminate].
    destruct (Z.ltb_spec (UtcNow s) (AbsoluteExpiration e)); [|discriminate].
    destruct (Value e) eqn:V; simpl; try discriminate.
    intros [= ->]. exists e. auto.
  - intros (e & -> & V & L). apply Z.ltb_lt in L. rewrite L, V. reflexivity.
Qed.

Lemma Effect_keeps_tests data s ev s' e l :
  Effect data s ev s' ->
  Entries s !! "tests" = Some e -> Value e = ObjTests l ->
  UtcNow s' < AbsoluteExpiration e ->
  Entries s' !! "tests" = Some e.
Proof.
  intros Eff E V L. pose proof (Effect_clock _ _ _ _ Eff) as Mono.
  destruct Eff as [n|r|r ms Hms|token a' b' c' G C|r C|r C];
    cbn [Stored Later Entries] in *; try assumption.
  - rewrite lookup_insert_ne; [exact E|]. apply cacheKey_not_tests.
  - exfalso. assert (H : CachedTests s = Some l).
    { apply CachedTests_Some. exists e. repeat split; try assumption.
      cbn [Stored Later UtcNow] in Mono, L. lia. }
    congruence.
  - rewrite lookup_insert_ne; [exact E|]. discriminate.
Qed.

Lemma Effect_keeps_schools data s ev s' e l :
  Effect data s ev s' ->
  Entries s !! "schools" = Some e -> Value e = ObjSchools l ->
  UtcNow s' < AbsoluteExpiration e ->
  Entries s' !! "schools" = Some e.
Proof.
  intros Eff E V L. pose proof (Effect_clock _ _ _ _ Eff) as Mono.
  destruct Eff as [n|r|r ms Hms|token a' b' c' G C|r C|r C];
    cbn [Stored Later Entries] in *; try assumption.
  - rewrite lookup_insert_ne; [exact E|]. apply cacheKey_not_schools.
  - rewrite lookup_insert_ne; [exact E|]. discriminate.
  - exfalso. assert (H : CachedSchools s = Some l).
    { apply CachedSchools_Some. exists e. repeat split; try assumption.
      cbn [Stored Later UtcNow] in Mono, L. lia. }
    congruence.
Qed.

Lemma run_keeps_tests data svc evs s e l :
  Entries s !! "tests" = Some e -> Value e = ObjTests l ->
  UtcNow (run data svc evs s) < AbsoluteExpiration e ->
  Entries (run data svc evs s) !! "tests" = Some e.
Proof.
  revert s. induction evs as [|ev evs IH]; intros s E V L; [exact E|].
  cbn [run fold_left] in *. fold (run data svc evs (step data svc ev s)) in *.
  apply IH; try assumption.
  apply (Effect_keeps_tests data s ev _ e l (step_effect data svc ev s));
    try assumption.
  pose proof (run_clock data svc evs (step data svc ev s)). lia.
Qed.

Lemma run_keeps_schools data svc evs s e l :
  Entries s !! "schools" = Some e -> Value e = ObjSchools l ->
  UtcNow (run data svc evs s) < AbsoluteExpiration e ->
  Entries (run data svc evs s) !! "schools" = Some e.
Proof.
  revert s. induction evs as [|ev evs IH]; intros s E V L; [exact E|].
  cbn [run fold_left] in *. fold (run data svc evs (step data svc ev s)) in *.
  apply IH; try assumption.
  apply (Effect_keeps_schools data s ev _ e l (step_effect data svc ev s));
    try assumption.
  pose proof (run_clock data svc evs (step data svc ev s)). lia.
Qed.

(** X4. Once the list of tests has been answered, the same list is answered
    again without a call of the data service for as long as its cache entry
    has not expired, whatever requests the server handles in between and
    whatever becomes of the tests file. *)
Theorem tests_are_served_from_cache
  (data1 data2 data3 : DataDirectory) (svc : TokenService) (s0 s1 : Server)
  (calls1 : list IDataService.Call) (l : list Test.t) (e : CacheEntry)
  (evs : list Event) :
  GetTests data1 s0 = (calls1, s1, Returned (Ok l)) ->
  Entries s1 !! "tests" = Some e ->
  UtcNow (run data2 svc evs s1) < AbsoluteExpiration e ->
  GetTests data3 (run data2 svc evs s1)
  = ([], run data2 svc evs s1, Returned (Ok l)).
Proof.
  intros First E L.
  assert (Ve : Value e = ObjTests l).
  { destruct (GetTests_cases data1 s0) as [(l' & C & X)|[(C & R & X)|(C & R & X)]];
      rewrite X in First; try congruence.
    - injection First as _ <- <-. apply CachedTests_Some in C.
      destruct C as (e' & E' & V' & _). congruence.
    - injection First as _ <- <-. cbn [Stored Entries] in E.
      rewrite lookup_insert_eq in E. injection E as <-. reflexivity. }
  assert (C : CachedTests (run data2 svc evs s1) = Some l).
  { apply CachedTests_Some. exists e. repeat split; try assumption.
    apply (run_keeps_tests data2 svc evs s1 e l); assumption. }
  destruct (GetTests_cases data3 (run data2 svc evs s1))
    as [(l' & C' & X)|[(C' & R & X)|(C' & R & X)]]; congruence.
Qed.

Lemma tests_are_served_from_cache_witness :
  let s1 := snd (fst (GetTests sample boot)) in
  GetTests garbled (run midpoint service visits s1)
  = ([], run midpoint service visits s1,
     Returned (Ok (items (tests_json sample)))).
Proof.
  intros s1.
  apply (tests_are_served_from_cache sample midpoint garbled service boot s1
           [IDataService.GetTests] (items (tests_json sample))
           {| Value := ObjTests (items (tests_json sample));
              AbsoluteExpiration := 1800300 |}
           visits).
  - vm_compute. reflexivity.
  - vm_compute. reflexivity.
  - vm_compute. reflexivity.
Defined.

(** X5. Once the list of schools has been answered, the same list is
    answered again without a call of the data service for as long as its
    cache entry has not expired, whatever requests the server handles in
    between and whatever becomes of the schools file. *)
Theorem schools_are_served_from_cache
  (data1 data2 data3 : DataDirectory) (svc : TokenService) (s0 s1 : Server)
  (calls1 : list IDataService.Call) (l : list School.t) (e : CacheEntry)
  (evs : list Event) :
  GetSchools data1 s0 = (calls1, s1, Returned (Ok l)) ->
  Entries s1 !! "schools" = Some e ->
  UtcNow (run data2 svc evs s1) < AbsoluteExpiration e ->
  GetSchools data3 (run data2 svc evs s1)
  = ([], run data2 svc evs s1, Returned (Ok l)).
Proof.
  intros First E L.
  assert (Ve : Value e = ObjSchools l).
  { destruct (GetSchools_cases data1 s0)
      as [(l' & C & X)|[(C & R & X)|(C & R & X)]];
      rewrite X in First; try congruence.
    - injection First as _ <- <-. apply CachedSchools_Some in C.
      destruct C as (e' & E' & V' & _). congruence.
    - injection First as _ <- <-. cbn [Stored Entries] in E.
      rewrite lookup_insert_eq in E. injection E as <-. reflexivity. }
  assert (C : CachedSchools (run data2 svc evs s1) = Some l).
  { apply CachedSchools_Some. exists e. repeat split; try assumption.
    apply (run_keeps_schools data2 svc evs s1 e l); assumption. }
  destruct (GetSchools_cases data3 (run data2 svc evs s1))
    as [(l' & C' & X)|[(C' & R & X)|(C' & R & X)]]; congruence.
Qed.

Lemma schools_are_served_from_cache_witness :
  let s1 := snd (fst (GetSchools sample boot)) in
  GetSchools garbled (run midpoint service traffic s1)
  = ([], run midpoint service traffic s1,
     Returned (Ok (items (schools_json sample)))).
Proof.
  intros s1.
  apply (schools_are_served_from_cache sample midpoint garbled service boot s1
           [IDataService.GetSchools] (items (schools_json sample))
           {| Value := ObjSchools (items (schools_json sample));
              AbsoluteExpiration := 1800300 |}
           traffic).
  - vm_compute. reflexivity.
  - vm_compute. reflexivity.
  - vm_compute. reflexivity.
Defined.

(** ** Errors and the cache *)

Lemma Live_later_None {T} (cast : CacheObject -> option T) (s : Server)
  (k : string) (ms : Z) :
  0 <= ms ->
  match Live s k with Some o => cast o | None => None end = None ->
  match Live (Later s ms) k with Some o => cast o | None => None end = None.
Proof.
  intros H. unfold Live, Later. cbn [Entries UtcNow].
  destruct (Entries s !! k) as [e|]; [|reflexivity].
  destruct (Z.ltb_spec (UtcNow s) (AbsoluteExpiration e));
    destruct (Z.ltb_spec (UtcNow s + ms) (AbsoluteExpiration e));
    auto; lia.
Qed.

(** X6. An error answer is not cached. After a dashboard, tests or schools
    request has ended in a 500 because a file could not be read, the cache
    holds what it held before, and the same request, once the files can be
    read, goes to the data service again and is answered from the files. *)
Theorem errors_are_not_cached (broken mended : DataDirectory) (s : Server) :
  (forall schoolId schoolYear testId,
     ValidQuery schoolId schoolYear testId ->
     CachedDashboard s (cacheKey schoolId schoolYear testId) = None ->
     readable (students_json broken) && readable (scores_json broken)
     && readable (historicalPerformance_json broken) = false ->
     readable (students_json mended) && readable (scores_json mended)
     && readable (historicalPerformance_json mended) = true ->
     exists calls,
       GetDashboardData broken schoolId schoolYear testId s
       = (calls, Later s 600,
          Returned (StatusCode 500
                      "An error occurred while retrieving dashboard data")) /\
       Entries (Later s 600) = Entries s /\
       GetDashboardData mended schoolId schoolYear testId (Later s 600)
       = ([IDataService.GetStudents; IDataService.GetScores;
           IDataService.GetHistoricalPerformance],
          Stored (Later (Later s 600) 600)
                 (cacheKey schoolId schoolYear testId)
                 (ObjDashboard (FreshDashboard mended schoolYear testId))
                 (FromMinutes 10),
          Returned (Ok (FreshDashboard mended schoolYear testId)))) /\
  (CachedTests s = None ->
   readable (tests_json broken) = false ->
   readable (tests_json mended) = true ->
   GetTests broken s
   = ([IDataService.GetTests], Later s 300,
      Returned (StatusCode 500 "An error occurred while retrieving tests")) /\
   Entries (Later s 300) = Entries s /\
   GetTests mended (Later s 300)
   = ([IDataService.GetTests],
      Stored (Later (Later s 300) 300) "tests"
             (ObjTests (items (tests_json mended))) (FromMinutes 30),
      Returned (Ok (items (tests_json mended))))) /\
  (CachedSchools s = None ->
   readable (schools_json broken) = false ->
   readable (schools_json mended) = true ->
   GetSchools broken s
   = ([IDataService.GetSchools], Later s 300,
      Returned (StatusCode 500 "An error occurred while retrieving schools")) /\
   Entries (Later s 300) = Entries s /\
   GetSchools mended (Later s 300)
   = ([IDataService.GetSchools],
      Stored (Later (Later s 300) 300) "schools"
             (ObjSchools (items (schools_json mended))) (FromMinutes 30),
      Returned (Ok (items (schools_json mended))))).
Proof.
  split; [|split].
  - intros a b c V M B G. apply ValidQuery_guard in V.
    destruct (GetDashboardData_miss_throws broken a b c s V M B)
      as (calls & _ & E).
    exists calls. split; [exact E|]. split; [reflexivity|].
    apply andb_prop in G. destruct G as [G R3].
    apply andb_prop in G. destruct G as [R1 R2].
    apply GetDashboardData_miss; try assumption.
    apply (Live_later_None asDashboardData); [lia|exact M].
  - intros M B G.
    destruct (GetTests_cases broken s) as [(l & C & X)|[(C & R & X)|(C & R & X)]];
      try congruence.
    split; [exact X|]. split; [reflexivity|].
    assert (M' : CachedTests (Later s 300) = None)
      by (apply (Live_later_None asTests); [lia|exact M]).
    destruct (GetTests_cases mended (Later s 300))
      as [(l & C' & X')|[(C' & R' & X')|(C' & R' & X')]]; congruence.
  - intros M B G.
    destruct (GetSchools_cases broken s)
      as [(l & C & X)|[(C & R & X)|(C & R & X)]]; try congruence.
    split; [exact X|]. split; [reflexivity|].
    assert (M' : CachedSchools (Later s 300) = None)
      by (apply (Live_later_None asSchools); [lia|exact M]).
    destruct (GetSchools_cases mended (Later s 300))
      as [(l & C' & X')|[(C' & R' & X')|(C' & R' & X')]]; congruence.
Qed.

Lemma errors_are_not_cached_witness :
  (exists calls,
     GetDashboardData garbled (Some "SCH1") (Some "2025-2026") (Some "2") stale
     = (calls, Later stale 600,
        Returned (StatusCode 500
                    "An error occurred while retrieving dashboard data")) /\
     Entries (Later stale 600) = Entries stale /\
     GetDashboardData sample (Some "SCH1") (Some "2025-2026") (Some "2")
                      (Later stale 600)
     = ([IDataService.GetStudents; IDataService.GetScores;
         IDataService.GetHistoricalPerformance],
        Stored (Later (Later stale 600) 600)
               (cacheKey (Some "SCH1") (Some "2025-2026") (Some "2"))
               (ObjDashboard (FreshDashboard sample (Some "2025-2026")
                                             (Some "2")))
               (FromMinutes 10),
        Returned (Ok (FreshDashboard sample (Some "2025-2026") (Some "2"))))).
Proof.
  apply (proj1 (errors_are_not_cached garbled sample stale)
           (Some "SCH1") (Some "2025-2026") (Some "2")).
  - apply valid_sample_query. discriminate.
  - vm_compute. reflexivity.
  - reflexivity.
  - reflexivity.
Defined.

(** ** What the cache holds, whatever is asked *)

Lemma run_invariant (P : Server -> Prop) data svc :
  (forall s ev s', Effect data s ev s' -> P s -> P s') ->
  forall evs s, P s -> P (run data svc evs s).
Proof.
  intros Step evs. induction evs as [|ev evs IH]; intros s H; [exact H|].
  cbn [run fold_left]. apply IH.
  exact (Step s ev _ (step_effect data svc ev s) H).
Qed.

Lemma Effect_WellTyped data s ev s' :
  Effect data s ev s' -> WellTyped s -> WellTyped s'.
Proof.
  intros Eff W.
  destruct Eff as [n|r|r ms Hms|token a b c G C|r C|r C];
    try exact W; intros k e H; cbn [Stored Later Entries] in H.
  - destruct (decide (cacheKey a b c = k)) as [<-|Q].
    + rewrite lookup_insert_eq in H. injection H as <-. cbn [Value]. eauto.
    + rewrite lookup_insert_ne in H by exact Q. exact (W k e H).
  - destruct (decide ("tests" = k)) as [<-|Q].
    + rewrite lookup_insert_eq in H. injection H as <-. reflexivity.
    + rewrite lookup_insert_ne in H by exact Q. exact (W k e H).
  - destruct (decide ("schools" = k)) as [<-|Q].
    + rewrite lookup_insert_eq in H. injection H as <-. reflexivity.
    + rewrite lookup_insert_ne in H by exact Q. exact (W k e H).
Qed.

Lemma Live_Some (s : Server) (k : string) (o : CacheObject) :
  Live s k = Some o -> exists e, Entries s !! k = Some e /\ Value e = o.
Proof.
  unfold Live. destruct (Entries s !! k) as [e|]; [|discriminate].
  destruct (UtcNow s <? AbsoluteExpiration e); [|discriminate].
  intros [= <-]. eauto.
Qed.

(** X7. The three controllers share one cache and never find each other's
    objects: in every state that the server reaches from an empty cache, what
    is live under the key of the tests is a list of tests, under the key of
    the schools a list of schools, and under the key of a dashboard query a
    dashboard, so that a typed lookup misses only when nothing is live. *)
Theorem cache_entries_keep_their_kind
  (data : DataDirectory) (svc : TokenService) (s0 : Server)
  (evs : list Event) :
  Entries s0 = ∅ ->
  let s := run data svc evs s0 in
  (forall o, Live s "tests" = Some o -> exists l, o = ObjTests l) /\
  (forall o, Live s "schools" = Some o -> exists l, o = ObjSchools l) /\
  (forall schoolId schoolYear testId o,
     Live s (cacheKey schoolId schoolYear testId) = Some o ->
     exists d, o = ObjDashboard d).
Proof.
  intros E0 s.
  assert (W : WellTyped s).
  { apply run_invariant; [apply Effect_WellTyped|].
    intros k e H. rewrite E0, lookup_empty in H. discriminate. }
  split; [|split].
  - intros o L. apply Live_Some in L. destruct L as (e & H & <-).
    specialize (W _ _ H). destruct (Value e) as [d|l|l]; eauto.
    + destruct W as (a & b & c & K). symmetry in K.
      destruct (cacheKey_not_tests _ _ _ K).
    + discriminate.
  - intros o L. apply Live_Some in L. destruct L as (e & H & <-).
    specialize (W _ _ H). destruct (Value e) as [d|l|l]; eauto.
    + destruct W as (a & b & c & K). symmetry in K.
      destruct (cacheKey_not_schools _ _ _ K).
    + discriminate.
  - intros a b c o L. apply Live_Some in L. destruct L as (e & H & <-).
    specialize (W _ _ H). destruct (Value e) as [d|l|l]; eauto.
    + destruct (cacheKey_not_schools _ _ _ W).
    + destruct (cacheKey_not_tests _ _ _ W).
Qed.

Lemma cache_entries_keep_their_kind_witness :
  let s := run sample service visits boot in
  (forall o, Live s "tests" = Some o -> exists l, o = ObjTests l) /\
  (forall o, Live s "schools" = Some o -> exists l, o = ObjSchools l) /\
  (forall schoolId schoolYear testId o,
     Live s (cacheKey schoolId schoolYear testId) = Some o ->
     exists d, o = ObjDashboard d).
Proof.
  exact (cache_entries_keep_their_kind sample service boot visits eq_refl).
Defined.

Lemma Effect_WithinTimeToLive data s ev s' :
  Effect data s ev s' -> WithinTimeToLive s -> WithinTimeToLive s'.
Proof.
  intros Eff W.
  destruct Eff as [n|r|r ms Hms|token a b c G C|r C|r C];
    try exact W; intros k e H; cbn [Stored Later Entries UtcNow] in *.
  - specialize (W k e H). lia.
  - specialize (W k e H). lia.
  - destruct (decide (cacheKey a b c = k)) as [<-|Q].
    + rewrite lookup_insert_eq in H. injection H as <-.
      cbn [Value AbsoluteExpiration TimeToLive]. unfold FromMinutes. lia.
    + rewrite lookup_insert_ne in H by exact Q. specialize (W k e H). lia.
  - destruct (decide ("tests" = k)) as [<-|Q].
    + rewrite lookup_insert_eq in H. injection H as <-.
      cbn [Value AbsoluteExpiration TimeToLive]. unfold FromMinutes. lia.
    + rewrite lookup_insert_ne in H by exact Q. specialize (W k e H). lia.
  - destruct (decide ("schools" = k)) as [<-|Q].
    + rewrite lookup_insert_eq in H. injection H as <-.
      cbn [Value AbsoluteExpiration TimeToLive]. unfold FromMinutes. lia.
    + rewrite lookup_insert_ne in H by exact Q. specialize (W k e H). lia.
Qed.

(** X8. Nothing stays in the cache longer than its time to live: in every
    state that the server reaches from an empty cache, a dashboard entry
    expires at most 10 minutes from now, and a tests or schools entry at most
    30 minutes from now, so an answer served from the cache was read from the
    files less than that long ago. *)
Theorem cache_entries_expire_within_their_time_to_live
  (data : DataDirectory) (svc : TokenService) (s0 : Server)
  (evs : list Event) (k : string) (e : CacheEntry) :
  Entries s0 = ∅ ->
  Entries (run data svc evs s0) !! k = Some e ->
  AbsoluteExpiration e
  <= UtcNow (run data svc evs s0)
     + match Value e with
       | ObjDashboard _ => 600000
       | ObjSchools _ | ObjTests _ => 1800000
       end.
Proof.
  intros E0 H.
  assert (W : WithinTimeToLive (run data svc evs s0)).
  { apply run_invariant; [apply Effect_WithinTimeToLive|].
    intros k' e' H'. rewrite E0, lookup_empty in H'. discriminate. }
  exact (W k e H).
Qed.

Lemma cache_entries_expire_within_their_time_to_live_witness :
  1800300 <= UtcNow (run sample service traffic
                         (snd (fst (GetTests sample boot)))) + 1800000.
Proof.
  pose proof (cache_entries_expire_within_their_time_to_live
                sample service boot
                (Receive {| Bearer := Some badge; Action := GET_tests |}
                 :: traffic)
                "tests"
                {| Value := ObjTests (items (tests_json sample));
                   AbsoluteExpiration := 1800300 |}
                eq_refl) as H.
  apply H. vm_compute. reflexivity.
Defined.

(** ** More on the login *)

Lemma Login_readable (data : DataDirectory) (svc : TokenService)
  (request : LoginRequest.t) (s : Server) :
  readable (users_json data) = true ->
  Login data svc request s
  = ([IDataService.GetUsers], Later s 800,
     Returned
       match
         FirstOrDefault
           (fun u =>
              String.eqb (User.Username u) (LoginRequest.Username request)
              && String.eqb (User.PasswordHash u)
                            (LoginRequest.Password request))
           (items (users_json data))
       with
       | Some user =>
           Ok {| LoginResponse.User := DtoOf user;
                 LoginResponse.Token :=
                   {| Jwt.Payload :=
                        {| Jwt.NameIdentifier := User.Id user;
                           Jwt.Name := User.Username user;
                           Jwt.Role := User.Role user;
                           Jwt.Issuer := JwtSettings.Issuer (Settings svc);
                           Jwt.Audience := JwtSettings.Audience (Settings svc);
                           Jwt.Expires :=
                             UtcNow s + 800
                             + FromMinutes
                                 (JwtSettings.ExpirationMinutes (Settings svc)) |};
                      Jwt.Signature :=
                        Hmac svc (JwtSettings.Secret (Settings svc))
                          {| Jwt.NameIdentifier := User.Id user;
                             Jwt.Name := User.Username user;
                             Jwt.Role := User.Role user;
                             Jwt.Issuer := JwtSettings.Issuer (Settings svc);
                             Jwt.Audience := JwtSettings.Audience (Settings svc);
                             Jwt.Expires :=
                               UtcNow s + 800
                               + FromMinutes
                                   (JwtSettings.ExpirationMinutes
                                      (Settings svc)) |} |} |}
       | None => Unauthorized "Invalid credentials"
       end).
Proof.
  intros R. run_task. rewrite (ReadJsonFileAsync_readable _ _ R).
  destruct (FirstOrDefault _ _); reflexivity.
Qed.

Lemma Login_unreadable (data : DataDirectory) (svc : TokenService)
  (request : LoginRequest.t) (s : Server) :
  readable (users_json data) = false ->
  Login data svc request s
  = ([IDataService.GetUsers], Later s 800,
     Returned (StatusCode 500 "An error occurred during login")).
Proof.
  intros R. run_task.
  destruct (unreadable_throws _ (Later s 800) R) as [E|E];
    unfold Later in E; rewrite E; reflexivity.
Qed.

(** X9. A login asks the data service for the users once, takes its 800 ms
    and leaves the cache alone. It is answered 500 exactly when the users
    file is there but cannot be read or parsed; when the file is absent or
    holds no record, every login is turned down with the 401. *)
Theorem login_status_by_users_file
  (data : DataDirectory) (svc : TokenService) (request : LoginRequest.t)
  (s : Server) :
  exists r,
    Login data svc request s
    = ([IDataService.GetUsers],
       {| UtcNow := UtcNow s + 800; Entries := Entries s |}, Returned r) /\
    (StatusOf r = 500 <-> readable (users_json data) = false) /\
    (readable (users_json data) = true -> items (users_json data) = [] ->
     r = Unauthorized "Invalid credentials").
Proof.
  destruct (readable (users_json data)) eqn:R.
  - rewrite (Login_readable data svc request s R).
    eexists. split; [reflexivity|]. split.
    + destruct (FirstOrDefault _ _); cbn [StatusOf]; split; discriminate.
    + intros _ E. rewrite E. reflexivity.
  - rewrite (Login_unreadable data svc request s R).
    eexists. split; [reflexivity|]. split.
    + split; reflexivity.
    + discriminate.
Qed.

Lemma login_status_by_users_file_witness :
  Login userless service (LoginRequest.mk "teacher" "password") boot
  = ([IDataService.GetUsers], {| UtcNow := 800; Entries := ∅ |},
     Returned (Unauthorized "Invalid credentials")).
Proof.
  destruct (login_status_by_users_file userless service
              (LoginRequest.mk "teacher" "password") boot)
    as (r & E & _ & A).
  rewrite (A eq_refl eq_refl) in E. exact E.
Defined.

Lemma find_first {T} (p : T -> bool) (before : list T) (x : T)
  (after : list T) :
  (forall y, In y before -> p y = false) -> p x = true ->
  List.find p (before ++ x :: after) = Some x.
Proof.
  intros N H. induction before as [|y l IH]; cbn [app List.find].
  - rewrite H. reflexivity.
  - rewrite (N y (or_introl eq_refl)). apply IH.
    intros z Hz. apply N. right. exact Hz.
Qed.

(** X10. When several stored records match the credentials of a login, the
    first of them in the order of the users file is the one logged in: the
    answer carries that record's user, and a token issued for that record's
    id, name and role. *)
Theorem login_picks_the_first_matching_record
  (data : DataDirectory) (svc : TokenService) (request : LoginRequest.t)
  (s : Server) (before after : list User.t) (u : User.t) :
  users_json data = JsonArray (before ++ u :: after) ->
  Matches request u ->
  (forall v, In v before -> ~ Matches request v) ->
  exists s' token,
    Login data svc request s
    = ([IDataService.GetUsers], s',
       Returned (Ok {| LoginResponse.User := DtoOf u;
                       LoginResponse.Token := token |})) /\
    Jwt.NameIdentifier (Jwt.Payload token) = User.Id u /\
    Jwt.Name (Jwt.Payload token) = User.Username u /\
    Jwt.Role (Jwt.Payload token) = User.Role u.
Proof.
  intros F M N.
  assert (R : readable (users_json data) = true) by (rewrite F; reflexivity).
  rewrite (Login_readable data svc request s R). rewrite F. cbn [items].
  unfold FirstOrDefault. rewrite find_first.
  - do 2 eexists. split; [reflexivity|]. repeat split.
  - intros v Hv. specialize (N v Hv).
    destruct (_ && _) eqn:B; [|reflexivity].
    apply credentials_eqb in B. contradiction.
  - apply credentials_eqb. exact M.
Qed.

Lemma login_picks_the_first_matching_record_witness :
  exists s' token,
    Login namesakes service (LoginRequest.mk "teacher" "password") boot
    = ([IDataService.GetUsers], s',
       Returned (Ok {| LoginResponse.User :=
                         UserDto.mk "1" "teacher" "John Smith"
                                    "teacher@school.edu" "teacher";
                       LoginResponse.Token := token |})) /\
    Jwt.NameIdentifier (Jwt.Payload token) = "1" /\
    Jwt.Name (Jwt.Payload token) = "teacher" /\
    Jwt.Role (Jwt.Payload token) = "teacher".
Proof.
  apply (login_picks_the_first_matching_record namesakes service
           (LoginRequest.mk "teacher" "password") boot
           [ User.mk "9" "admin" "admin123" "Ada King" "admin@school.edu"
                     "admin" ]
           [ User.mk "2" "teacher" "password" "Jane Smith" "jane@school.edu"
                     "teacher" ]
           (User.mk "1" "teacher" "password" "John Smith"
                    "teacher@school.edu" "teacher")).
  - reflexivity.
  - split; reflexivity.
  - intros v [<-|[]] [H _]. discriminate.
Defined.

(** * Properties of the client *)

(** ** The store *)

Lemma dashboardReducer_keeps_invariant state action :
  NoDataWithoutAggregate state ->
  NoDataWithoutAggregate (dashboardReducer state action).
Proof.
  unfold NoDataWithoutAggregate.
  destruct action; cbn; intros H E; auto; discriminate.
Qed.

(** X11. Whatever actions are dispatched to the dashboard slice from its
    initial state, the store never holds students, scores or historical
    performance without aggregate scores, so the page, which shows the lists
    only when there are aggregate scores, never hides loaded data. *)
Theorem store_has_no_data_without_aggregate (actions : list DashboardAction) :
  NoDataWithoutAggregate (fold_left dashboardReducer actions initialState).
Proof.
  assert (G : forall state, NoDataWithoutAggregate state ->
                NoDataWithoutAggregate (fold_left dashboardReducer actions state)).
  { induction actions as [|a l IH]; intros state H; [exact H|].
    cbn [fold_left]. apply IH. apply dashboardReducer_keeps_invariant.
    exact H. }
  apply G. intros _. repeat split.
Qed.

(** ** Calls of the API *)

Lemma falsy_IsNullOrEmpty (p : option string) : falsy p = IsNullOrEmpty p.
Proof. destruct p as [[|ch r]|]; reflexivity. Qed.

Lemma getDashboardData_outcomes (data : DataDirectory) (svc : TokenService)
  (browser : Browser) (schoolId schoolYear testId : string) (s : Server) :
  IsNullOrEmpty (Some schoolId) || IsNullOrEmpty (Some schoolYear)
  || IsNullOrEmpty (Some testId) = false ->
  exists calls s' r,
    getDashboardData data svc browser schoolId schoolYear testId s
    = (calls, s', r) /\
    ((r = inl (RequestFailed 401) /\ calls = [] /\ s' = s)
     \/ (r = inl (RequestFailed 500) /\ Entries s' = Entries s)
     \/ exists d,
          r = inr d /\
          GetDashboardData data (Some schoolId) (Some schoolYear) (Some testId) s
          = (calls, s', Returned (Ok d))).
Proof.
  intros G. unfold getDashboardData, apiClient, Handle. cbn [Action Authorize].
  destruct (Authenticated svc _ s); cbn [negb andb].
  - cbn [Dispatch].
    destruct (GetDashboardData_cases data (Some schoolId) (Some schoolYear)
                (Some testId) s)
      as [[G' X]|[_ [(d & C & X)|[(C & X)|(C & calls & N & X)]]]];
      [congruence| | |]; rewrite (fmap_task_run _ _ _ _ _ _ X);
      cbn [StatusOfResponse StatusOf Z.leb Z.ltb Z.compare Pos.compare
           Pos.compare_cont andb];
      do 3 eexists; (split; [reflexivity|]).
    + right. right. eauto.
    + right. right. eauto.
    + right. left. split; reflexivity.
  - do 3 eexists. split; [reflexivity|]. left. repeat split.
Qed.

Lemma selection_parameters (state : DashboardState.t) :
  CompleteSelection state ->
  exists a b c,
    DashboardState.selectedSchoolId state = Some a /\
    DashboardState.selectedSchoolYear state = Some b /\
    DashboardState.selectedTestId state = Some c /\
    IsNullOrEmpty (Some a) || IsNullOrEmpty (Some b) || IsNullOrEmpty (Some c)
    = false.
Proof.
  unfold CompleteSelection. rewrite !falsy_IsNullOrEmpty.
  destruct (DashboardState.selectedSchoolId state) as [a|]; [|discriminate].
  destruct (DashboardState.selectedSchoolYear state) as [b|];
    [|rewrite orb_true_r; discriminate].
  destruct (DashboardState.selectedTestId state) as [c|];
    [|rewrite orb_true_r; discriminate].
  intros G. exists a, b, c. auto.
Qed.

(** The ways a load of the dashboard can go once the selection is complete. *)
Lemma loadDashboardData_outcomes (data : DataDirectory) (svc : TokenService)
  (browser : Browser) (state : DashboardState.t) (s : Server) :
  CompleteSelection state ->
  exists calls s' a b c,
    DashboardState.selectedSchoolId state = Some a /\
    DashboardState.selectedSchoolYear state = Some b /\
    DashboardState.selectedTestId state = Some c /\
    ((loadDashboardData data svc browser state s
      = (calls, s',
         fetchDataFailure (fetchDataStart state) (message (RequestFailed 401)))
      /\ calls = [] /\ s' = s)
     \/ (loadDashboardData data svc browser state s
         = (calls, s',
            fetchDataFailure (fetchDataStart state)
                             (message (RequestFailed 500)))
         /\ Entries s' = Entries s)
     \/ exists d,
          loadDashboardData data svc browser state s
          = (calls, s', fetchDataSuccess (fetchDataStart state) d) /\
          GetDashboardData data (Some a) (Some b) (Some c) s
          = (calls, s', Returned (Ok d))).
Proof.
  intros Sel. pose proof Sel as Sel'.
  destruct (selection_parameters state Sel) as (a & b & c & Ea & Eb & Ec & G).
  destruct (getDashboardData_outcomes data svc browser a b c s G)
    as (calls & s' & r & E & Cases).
  exists calls, s', a, b, c. repeat (split; [assumption|]).
  unfold loadDashboardData. unfold CompleteSelection in Sel'. rewrite Sel'.
  cbn [dashboardReducer fetchDataStart DashboardState.selectedSchoolId
       DashboardState.selectedSchoolYear DashboardState.selectedTestId].
  rewrite Ea, Eb, Ec. cbn [fmt default from_option id]. rewrite E.
  destruct Cases as [(-> & -> & ->)|[(-> & Es)|(d & -> & X)]].
  - left. repeat split.
  - right. left. split; [reflexivity|exact Es].
  - right. right. exists d. split; [reflexivity|exact X].
Qed.

(** ** The dashboard in the store *)

Lemma dashboardReducer_keeps_dashboard state action :
  KeepsDashboard action -> SameDashboard state (dashboardReducer state action).
Proof. destruct action; cbn; intros K; try destruct K; repeat split. Qed.

Lemma dashboardReducer_after (actions : list DashboardAction)
  (action : DashboardAction) (state : DashboardState.t) :
  fold_left dashboardReducer (actions ++ [action]) state
  = dashboardReducer (fold_left dashboardReducer actions state) action.
Proof. rewrite fold_left_app. reflexivity. Qed.

(** X13. Selections, load starts and load failures, dispatched in any number
    and in any order, so also by loads that overlap, leave the dashboard in
    the store untouched: the page goes on showing the students, scores and
    averages it showed, and only [fetchDataSuccess] and [clearDashboardData]
    replace them. When the last of these actions is a [fetchDataFailure], the
    store is not loading and holds the message of that failure. *)
Theorem dashboard_stays_until_a_load_succeeds
  (actions : list DashboardAction) (state : DashboardState.t) :
  Forall KeepsDashboard actions ->
  SameDashboard state (fold_left dashboardReducer actions state) /\
  (forall before message,
     actions = before ++ [FetchDataFailure message] ->
     DashboardState.loading (fold_left dashboardReducer actions state) = false /\
     DashboardState.error (fold_left dashboardReducer actions state)
     = Some message).
Proof.
  intros F. split.
  - revert state. induction actions as [|a l IH]; intros state.
    + repeat split.
    + apply Forall_cons_1 in F. destruct F as [K F]. cbn [fold_left].
      destruct (IH F (dashboardReducer state a)) as (S1 & S2 & S3 & S4).
      destruct (dashboardReducer_keeps_dashboard state a K)
        as (T1 & T2 & T3 & T4).
      repeat split; congruence.
  - intros before message ->. rewrite dashboardReducer_after.
    split; reflexivity.
Qed.

Lemma dashboard_stays_until_a_load_succeeds_witness :
  let state' :=
    fold_left dashboardReducer
      [ FetchDataStart; SetSelectedTest "3"; FetchDataStart;
        FetchDataFailure "Request failed with status code 500";
        FetchDataFailure "Request failed with status code 401" ]
      repicked in
  DashboardState.scores state' = [score "1" "2" 80; score "2" "2" 90] /\
  SameDashboard repicked state' /\
  DashboardState.loading state' = false /\
  DashboardState.error state' = Some "Request failed with status code 401".
Proof.
  intros state'. split; [reflexivity|].
  destruct (dashboard_stays_until_a_load_succeeds
              [ FetchDataStart; SetSelectedTest "3"; FetchDataStart;
                FetchDataFailure "Request failed with status code 500";
                FetchDataFailure "Request failed with status code 401" ]
              repicked) as [Same Last].
  - repeat (apply List.Forall_cons; [exact I|]). apply List.Forall_nil.
  - split; [exact Same|].
    exact (Last [ FetchDataStart; SetSelectedTest "3"; FetchDataStart;
                  FetchDataFailure "Request failed with status code 500" ]
                "Request failed with status code 401" eq_refl).
Defined.

(** ** Loading the dashboard *)

(** X14. After a load that succeeded against a server that started from an
    empty cache and whose files stayed as they are, the number of students
    on the class-average card is the number of rows of the students table,
    whether the answer was computed or came from the cache. *)
Theorem loaded_card_counts_the_rows_of_the_table
  (data : DataDirectory) (svc : TokenService) (browser : Browser)
  (state state' : DashboardState.t) (s0 s' : Server) (evs : list Event)
  (calls : list IDataService.Call) :
  Entries s0 = ∅ ->
  CompleteSelection state ->
  loadDashboardData data svc browser state (run data svc evs s0)
  = (calls, s', state') ->
  DashboardState.error state' = None ->
  exists aggregateScores,
    DashboardState.aggregateScores state' = Some aggregateScores /\
    AggregateScore.TotalStudents aggregateScores
    = Z.of_nat (length (StudentList.rows (DashboardState.students state')
                                         (DashboardState.scores state'))) /\
    DashboardState.students state' = items (students_json data).
Proof.
  intros E0 Sel E NoError.
  assert (Co : Coherent (fun _ => True) data (run data svc evs s0)).
  { apply run_coherent; [|apply empty_coherent; exact E0].
    apply Forall_forall. intros [n|[token [body| | |a b c]]] _; simpl; auto. }
  destruct (loadDashboardData_outcomes data svc browser state
              (run data svc evs s0) Sel)
    as (calls0 & s1 & a & b & c & Ea & Eb & Ec &
        [(X & _)|[(X & _)|(d & X & G)]]);
    rewrite X in E; injection E as _ _ <-; try discriminate.
  destruct (coherent_answer _ _ _ _ _ _ _ _ _ Co I I G)
    as (a' & b' & c' & _ & _ & _ & _ & _ & ->).
  eexists. split; [reflexivity|].
  cbn [fetchDataSuccess DashboardState.students DashboardState.scores
       FreshDashboard DashboardData.Students DashboardData.Scores
       DashboardData.AggregateScores AggregateScore.TotalStudents].
  unfold StudentList.rows. rewrite length_map. split; reflexivity.
Qed.

Lemma loaded_card_counts_the_rows_of_the_table_witness :
  exists calls s' state' aggregateScores,
    loadDashboardData sample service {| localStorage_token := Some badge |}
                      picked (run sample service visits boot)
    = (calls, s', state') /\
    DashboardState.aggregateScores state' = Some aggregateScores /\
    AggregateScore.TotalStudents aggregateScores
    = Z.of_nat (length (StudentList.rows (DashboardState.students state')
                                         (DashboardState.scores state'))) /\
    DashboardState.students state' = roster.
Proof.
  assert (E : loadDashboardData sample service
                {| localStorage_token := Some badge |} picked
                (run sample service visits boot)
              = ([], run sample service visits boot,
                 fetchDataSuccess (fetchDataStart picked)
                   (FreshDashboard sample (Some "2025-2026") (Some "2"))))
    by (vm_compute; reflexivity).
  destruct (loaded_card_counts_the_rows_of_the_table sample service
              {| localStorage_token := Some badge |} picked _ boot _ visits _
              eq_refl eq_refl E eq_refl) as (agg & A & T & S).
  do 4 eexists. split; [exact E|]. split; [exact A|]. split; [exact T|exact S].
Defined.

(** ** The students table *)

Lemma find_filter {T} (p q : T -> bool) (l : list T) :
  List.find p (List.filter q l) = List.find (fun x => q x && p x) l.
Proof.
  induction l as [|x l IH]; [reflexivity|]. cbn [List.filter List.find].
  destruct (q x); cbn [List.find andb]; [destruct (p x)|]; auto.
Qed.

(** X15. In the students table of a computed dashboard, the row of a
    student shows the first record of the scores file that has the student's
    id and the queried test id, and reads N/A exactly when the file has no
    such record. *)
Theorem row_shows_the_first_score_of_student_and_test
  (data : DataDirectory) (schoolId schoolYear testId : option string)
  (s s' : Server) (calls : list IDataService.Call) (d : DashboardData.t)
  (student : Student.t) :
  CachedDashboard s (cacheKey schoolId schoolYear testId) = None ->
  GetDashboardData data schoolId schoolYear testId s
  = (calls, s', Returned (Ok d)) ->
  StudentList.getStudentScore (DashboardData.Scores d) (Student.Id student)
  = List.find
      (fun sc => op_Equality (StudentScore.TestId sc) testId
                 && String.eqb (StudentScore.StudentId sc) (Student.Id student))
      (items (scores_json data)) /\
  match
    StudentList.getStudentScore (DashboardData.Scores d) (Student.Id student)
  with
  | Some sc =>
      In sc (items (scores_json data)) /\
      StudentScore.StudentId sc = Student.Id student /\
      testId = Some (StudentScore.TestId sc)
  | None =>
      forall sc, In sc (items (scores_json data)) ->
                 StudentScore.StudentId sc = Student.Id student ->
                 testId <> Some (StudentScore.TestId sc)
  end.
Proof.
  intros M E. destruct (computed_answer _ _ _ _ _ _ _ _ M E) as (-> & _ & _).
  cbn [FreshDashboard DashboardData.Scores].
  unfold StudentList.getStudentScore, matching.
  rewrite find_filter. split; [reflexivity|].
  destruct (List.find _ (items (scores_json data))) as [sc|] eqn:F.
  - apply find_some in F. destruct F as [Hin B].
    apply andb_prop in B. destruct B as [B1 B2].
    apply op_Equality_true in B1. apply String.eqb_eq in B2. auto.
  - intros sc Hin Hs Ht.
    pose proof (find_none _ _ F sc Hin) as B. cbv beta in B.
    rewrite (proj2 (op_Equality_true _ _) Ht) in B.
    rewrite (proj2 (String.eqb_eq _ _) Hs) in B. discriminate.
Qed.

Lemma row_shows_the_first_score_of_student_and_test_witness :
  let d := FreshDashboard sample (Some "2025-2026") (Some "2") in
  StudentList.rows (DashboardData.Students d) (DashboardData.Scores d)
  = [ StudentList.mkRow "STU001" "Emma Johnson" "5"
        (Some ("text-blue-700 bg-blue-100", 80)) "50%";
      StudentList.mkRow "STU002" "Liam Williams" "5"
        (Some ("text-green-700 bg-green-100", 90)) "50%";
      StudentList.mkRow "STU003" "Olivia Brown" "5" None "N/A" ] /\
  forall sc, In sc (items (scores_json sample)) ->
             StudentScore.StudentId sc = "3" ->
             Some "2" <> Some (StudentScore.TestId sc).
Proof.
  intros d. split; [vm_compute; reflexivity|].
  exact (proj2 (row_shows_the_first_score_of_student_and_test sample
                  (Some "SCH1") (Some "2025-2026") (Some "2") boot
                  (Stored (Later boot 600)
                     (cacheKey (Some "SCH1") (Some "2025-2026") (Some "2"))
                     (ObjDashboard d) (FromMinutes 10))
                  [IDataService.GetStudents; IDataService.GetScores;
                   IDataService.GetHistoricalPerformance] d
                  (Student.mk "3" "Olivia" "Brown" "STU003" "5")
                  eq_refl eq_refl)).
Defined.

(** ** Logging in from the client *)

Lemma apiClient_login (data : DataDirectory) (svc : TokenService)
  (browser : Browser) (credentials : LoginRequest.t) (s s' : Server)
  (calls : list IDataService.Call) (r : ActionResult LoginResponse.t) :
  Login data svc credentials s = (calls, s', Returned r) ->
  apiClient data svc browser (POST_auth_login credentials) s
  = (calls, s',
     if (200 <=? StatusOf r) && (StatusOf r <? 300)
     then inr (FromLogin r)
     else inl (RequestFailed (StatusOf r))).
Proof.
  intros E. unfold apiClient, Handle. cbn [Action Authorize andb Dispatch].
  rewrite (fmap_task_run _ _ _ _ _ _ E). cbn [StatusOfResponse].
  destruct ((200 <=? StatusOf r) && (StatusOf r <? 300)); reflexivity.
Qed.

(** X16. A login from the client resolves with the user and the token of
    the first matching record and puts that token into the local storage.
    It rejects with the message Invalid credentials when the users file was
    read and no record matches, and with Login failed when the file could
    not be read; in both cases the local storage keeps the token it had. *)
Theorem loginUser_stores_the_token_or_tells_why_not
  (data : DataDirectory) (svc : TokenService) (browser : Browser)
  (credentials : LoginRequest.t) (s : Server) :
  exists s' browser' outcome,
    loginUser data svc browser credentials s
    = ([IDataService.GetUsers], s', browser', outcome) /\
    (readable (users_json data) = false ->
     outcome = inl "Login failed" /\ browser' = browser) /\
    (readable (users_json data) = true ->
     (forall u, In u (items (users_json data)) -> ~ Matches credentials u) ->
     outcome = inl "Invalid credentials" /\ browser' = browser) /\
    (forall u, In u (items (users_json data)) -> Matches credentials u ->
     exists response,
       outcome = inr response /\
       localStorage_token browser' = Some (LoginResponse.Token response) /\
       Login data svc credentials s
       = ([IDataService.GetUsers], s', Returned (Ok response))).
Proof.
  destruct (readable (users_json data)) eqn:R.
  - pose proof (Login_readable data svc credentials s R) as E.
    unfold loginUser. rewrite (apiClient_login _ _ _ _ _ _ _ _ E).
    destruct (FirstOrDefault _ (items (users_json data))) as [u|] eqn:F.
    + do 3 eexists. split; [reflexivity|]. split; [discriminate|]. split.
      * intros _ N. apply FirstOrDefault_Some in F. destruct F as [Hin B].
        apply credentials_eqb in B. destruct (N u Hin B).
      * intros _ _ _. eexists. split; [reflexivity|].
        split; [reflexivity|]. exact E.
    + do 3 eexists. split; [reflexivity|]. split; [discriminate|]. split.
      * intros _ _. split; reflexivity.
      * intros u Hin M. pose proof (FirstOrDefault_None _ _ F u Hin) as B.
        cbv beta in B. apply credentials_eqb in M. congruence.
  - pose proof (Login_unreadable data svc credentials s R) as E.
    unfold loginUser. rewrite (apiClient_login _ _ _ _ _ _ _ _ E).
    do 3 eexists. split; [reflexivity|]. split; [|split].
    + intros _. split; reflexivity.
    + discriminate.
    + intros u Hin. destruct (users_json data); try discriminate;
        destruct Hin.
Qed.

Lemma loginUser_stores_the_token_or_tells_why_not_witness :
  loginUser sample service {| localStorage_token := None |}
            (LoginRequest.mk "teacher" "password") boot
  = ([IDataService.GetUsers], Later boot 800,
     {| localStorage_token := Some badge |},
     inr {| LoginResponse.User :=
              UserDto.mk "1" "teacher" "John Smith" "teacher@school.edu"
                         "teacher";
            LoginResponse.Token := badge |}) /\
  loginUser sample service {| localStorage_token := Some forged |}
            (LoginRequest.mk "teacher" "letmein") boot
  = ([IDataService.GetUsers], Later boot 800,
     {| localStorage_token := Some forged |}, inl "Invalid credentials").
Proof.
  split.
  - destruct (loginUser_stores_the_token_or_tells_why_not sample service
                {| localStorage_token := None |}
                (LoginRequest.mk "teacher" "password") boot)
      as (s' & browser' & outcome & E & _ & _ & Found).
    destruct (Found (User.mk "1" "teacher" "password" "John Smith"
                             "teacher@school.edu" "teacher")
                (or_introl eq_refl) (conj eq_refl eq_refl))
      as (response & -> & T & L).
    vm_compute in L. injection L as <- <-.
    destruct browser' as [t]. cbn in T. rewrite T in E. exact E.
  - destruct (loginUser_stores_the_token_or_tells_why_not sample service
                {| localStorage_token := Some forged |}
                (LoginRequest.mk "teacher" "letmein") boot)
      as (s' & browser' & outcome & E & _ & Mismatch & _).
    destruct (Mismatch eq_refl) as [-> ->].
    + intros u [<-|[]] [_ H]. discriminate.
    + vm_compute in E. injection E as <-. reflexivity.
Defined.

(** ** Cache keys of distinct queries *)

(** X17. Two valid dashboard queries whose school ids and school years
    contain no underscore have the same cache key only if they are the same
    query: such queries never share a cache entry. *)
Theorem distinct_queries_have_distinct_cache_keys
  (schoolId schoolYear testId schoolId' schoolYear' testId' : option string) :
  ValidQuery schoolId schoolYear testId ->
  ValidQuery schoolId' schoolYear' testId' ->
  NoUnderscore schoolId -> NoUnderscore schoolYear ->
  NoUnderscore schoolId' -> NoUnderscore schoolYear' ->
  cacheKey schoolId schoolYear testId = cacheKey schoolId' schoolYear' testId' ->
  schoolId = schoolId' /\ schoolYear = schoolYear' /\ testId = testId'.
Proof.
  intros V V' Na Nb Na' Nb' K.
  apply ValidQuery_guard in V. apply ValidQuery_guard in V'.
  exact (cacheKey_inj _ _ _ _ _ _ Na Nb Na' Nb' V V' K).
Qed.

Lemma distinct_queries_have_distinct_cache_keys_witness :
  cacheKey (Some "SCH1") (Some "2025-2026") (Some "2")
  <> cacheKey (Some "SCH1") (Some "2024-2025") (Some "2").
Proof.
  intros K.
  apply (distinct_queries_have_distinct_cache_keys
           (Some "SCH1") (Some "2025-2026") (Some "2")
           (Some "SCH1") (Some "2024-2025") (Some "2")) in K.
  - destruct K as (_ & Y & _). discriminate.
  - apply valid_sample_query. discriminate.
  - unfold ValidQuery, MissingOrEmpty.
    repeat split; intros [H|H]; discriminate.
  - apply NoUnderscore_check. reflexivity.
  - apply NoUnderscore_check. reflexivity.
  - apply NoUnderscore_check. reflexivity.
  - apply NoUnderscore_check. reflexivity.
Defined.
